(** * sampled: a daemon that logs the system time once per second

    A shallow embedding of [sampled.c] and the properties of its
    daemonization sequence, its signal handler and its logging loop.

    The program is a straight line of system calls.  The process is a
    record of the kernel and libc state those calls touch, together with
    the chronological list of the calls made; the operating system is an
    oracle that supplies every value the program cannot decide by itself
    (results of [fork], [setsid], [chdir], the clock, arriving signals). *)

From Stdlib Require Import ZArith String Ascii List Bool Lia.
From stdpp Require Import gmap.

Local Open Scope string_scope.
Local Open Scope list_scope.
Local Open Scope Z_scope.

(** ** Constants *)

(** Exit statuses defined by the program. *)
Definition OK : Z := 0.
Definition ERR_FORK : Z := 3.
Definition ERR_SETSID : Z := 4.
Definition ERR_CHDIR : Z := 5.
Definition ERR_WTF : Z := 187.

Definition ERROR_FORMAT : string := "An error occurred. The error is: %s".

Definition LOG_INTERVAL : Z := 1.

(** Values of the system headers (Linux, glibc). *)
Definition SIGHUP : Z := 1.
Definition SIGTERM : Z := 15.

Definition LOG_ERR : Z := 3.
Definition LOG_INFO : Z := 6.
Definition LOG_PID : Z := 1.
Definition LOG_NDELAY : Z := 8.
Definition LOG_NOWAIT : Z := 16.
Definition LOG_DAEMON : Z := 24.

Definition STDIN_FILENO : Z := 0.
Definition STDOUT_FILENO : Z := 1.
Definition STDERR_FILENO : Z := 2.

Definition S_IRUSR : Z := 256. (* 0400 *)
Definition S_IWUSR : Z := 128. (* 0200 *)
Definition S_IRGRP : Z := 32.  (* 0040 *)
Definition S_IROTH : Z := 4.   (* 0004 *)

(** ** C strings *)

(** A C string is the text before its terminator; a [char *] into it is
    an offset.  [strrchr s c] is the offset of the last [c] in [s], and
    [None] (the null pointer) when [s] has none. *)
Fixpoint strrchr (s : string) (c : ascii) : option nat :=
  match s with
  | EmptyString => None
  | String a s' =>
      match strrchr s' c with
      | Some i => Some (S i)
      | None => if Ascii.eqb a c then Some O else None
      end
  end.

(** The string a pointer at offset [p] of [s] designates. *)
Fixpoint c_str (s : string) (p : nat) {struct p} : string :=
  match p, s with
  | O, _ => s
  | S p', String _ s' => c_str s' p'
  | S _, EmptyString => EmptyString
  end.

(** Whether the character [c] occurs in [s]. *)
Fixpoint occurs (c : ascii) (s : string) : bool :=
  match s with
  | EmptyString => false
  | String a s' => Ascii.eqb a c || occurs c s'
  end.

(** The one conversion the program's format strings use: the first
    [%s] of [fmt] is replaced by [arg]. *)
Fixpoint format_s (fmt arg : string) : string :=
  match fmt with
  | EmptyString => EmptyString
  | String a rest =>
      match rest with
      | String b rest' =>
          if Ascii.eqb a "%" && Ascii.eqb b "s"
          then String.append arg rest'
          else String a (format_s rest arg)
      | EmptyString => String a EmptyString
      end
  end.

(** ** The process and the operating system *)

(** The functions of the program that can be installed as a signal
    handler; there is one. *)
Inductive sighandler : Type :=
| Fn_signal_handler.

(** Library and system calls, with the arguments they were given. *)
Inductive call : Type :=
| Openlog (ident : string) (option facility : Z)
| Syslog (priority : Z) (message : string)
| Closelog
| Fork
| Setsid
| Close (fd : Z)
| Umask (cmask : Z)
| Chdir (path : string)
| Signal (signum : Z) (handler : sighandler)
| GetTime
| Sleep (seconds : Z)
| Exit (status : Z)
| Caught (signum : Z).  (* the kernel entered a handler for [signum] *)

(** [struct tm] of <time.h>. *)
Record tm : Type := {
  tm_sec : Z; tm_min : Z; tm_hour : Z; tm_mday : Z; tm_mon : Z;
  tm_year : Z; tm_wday : Z; tm_yday : Z; tm_isdst : Z
}.

Record proc : Type := {
  app_name : option nat;            (* static char *app_name: offset into argv[0], None is NULL *)
  errno : Z;
  log_chan : option (string * Z * Z); (* ident, option, facility of the open log *)
  open_fds : gset Z;
  fmask : Z;                        (* file mode creation mask *)
  cwd : string;
  handlers : gmap Z sighandler;     (* signals not at their default action *)
  naps : nat;                       (* completed calls of sleep *)
  calls : list call                 (* every call so far, oldest first *)
}.

(** What the operating system answers. *)
Record os : Type := {
  fork_ret : Z;
  fork_errno : Z;
  setsid_ret : Z;
  setsid_errno : Z;
  chdir_ret : Z;
  chdir_errno : Z;
  strerror : Z -> string;
  clock : nat -> Z;               (* seconds since the epoch after [n] sleeps *)
  localtime : Z -> tm;
  asctime : tm -> string;
  arrivals : nat -> list Z;       (* signals that arrive during the sleep after [n] sleeps *)
  sig_dfl_fatal : Z -> bool       (* whether the default action ends the process *)
}.

(** [setsid] returns a session id or -1. *)
Definition setsid_contract (w : os) : Prop :=
  setsid_ret w = -1 \/ 0 < setsid_ret w.

(** A process as [exec] starts it: the standard streams open, no
    handler installed, no log open. *)
Definition fresh (dir : string) (m : Z) : proc :=
  {| app_name := None; errno := 0; log_chan := None;
     open_fds := {[ STDIN_FILENO; STDOUT_FILENO; STDERR_FILENO ]};
     fmask := m; cwd := dir; handlers := ∅; naps := O; calls := [] |}.

(** Permission bits of a file created with mode [mode] under the file
    mode creation mask [m]: the bits of [m] are turned off. *)
Definition created_mode (m mode : Z) : Z := Z.land mode (Z.lnot m).

(** *** Field updates *)

Definition emit (c : call) (p : proc) : proc :=
  {| app_name := app_name p; errno := errno p; log_chan := log_chan p;
     open_fds := open_fds p; fmask := fmask p; cwd := cwd p;
     handlers := handlers p; naps := naps p; calls := calls p ++ [c] |}.

Definition set_app_name (v : option nat) (p : proc) : proc :=
  {| app_name := v; errno := errno p; log_chan := log_chan p;
     open_fds := open_fds p; fmask := fmask p; cwd := cwd p;
     handlers := handlers p; naps := naps p; calls := calls p |}.

Definition set_errno (v : Z) (p : proc) : proc :=
  {| app_name := app_name p; errno := v; log_chan := log_chan p;
     open_fds := open_fds p; fmask := fmask p; cwd := cwd p;
     handlers := handlers p; naps := naps p; calls := calls p |}.

Definition set_log_chan (v : option (string * Z * Z)) (p : proc) : proc :=
  {| app_name := app_name p; errno := errno p; log_chan := v;
     open_fds := open_fds p; fmask := fmask p; cwd := cwd p;
     handlers := handlers p; naps := naps p; calls := calls p |}.

Definition set_open_fds (v : gset Z) (p : proc) : proc :=
  {| app_name := app_name p; errno := errno p; log_chan := log_chan p;
     open_fds := v; fmask := fmask p; cwd := cwd p;
     handlers := handlers p; naps := naps p; calls := calls p |}.

Definition set_fmask (v : Z) (p : proc) : proc :=
  {| app_name := app_name p; errno := errno p; log_chan := log_chan p;
     open_fds := open_fds p; fmask := v; cwd := cwd p;
     handlers := handlers p; naps := naps p; calls := calls p |}.

Definition set_cwd (v : string) (p : proc) : proc :=
  {| app_name := app_name p; errno := errno p; log_chan := log_chan p;
     open_fds := open_fds p; fmask := fmask p; cwd := v;
     handlers := handlers p; naps := naps p; calls := calls p |}.

Definition set_handlers (v : gmap Z sighandler) (p : proc) : proc :=
  {| app_name := app_name p; errno := errno p; log_chan := log_chan p;
     open_fds := open_fds p; fmask := fmask p; cwd := cwd p;
     handlers := v; naps := naps p; calls := calls p |}.

Definition set_naps (v : nat) (p : proc) : proc :=
  {| app_name := app_name p; errno := errno p; log_chan := log_chan p;
     open_fds := open_fds p; fmask := fmask p; cwd := cwd p;
     handlers := handlers p; naps := v; calls := calls p |}.

(** The process after [close(fd)] and after [signal(signum, handler)]. *)
Definition closed (fd : Z) (p : proc) : proc :=
  set_open_fds (open_fds p ∖ {[ fd ]}) (emit (Close fd) p).

Definition installed (signum : Z) (handler : sighandler) (p : proc) : proc :=
  set_handlers (<[ signum := handler ]> (handlers p)) (emit (Signal signum handler) p).

(** ** Computations *)

(** How a computation ends: it returns a value, the process ends by
    [exit], the process is ended by a signal, or it is still running when
    the observation stops. *)
Inductive outcome (A : Type) : Type :=
| Ret (a : A)
| Exited (status : Z)
| Killed (signum : Z)
| Running.

Arguments Ret {A} a.
Arguments Exited {A} status.
Arguments Killed {A} signum.
Arguments Running {A}.

Definition M (A : Type) : Type := proc -> outcome A * proc.

Definition ret {A : Type} (a : A) : M A := fun p => (Ret a, p).

Definition bind {A B : Type} (m : M A) (k : A -> M B) : M B :=
  fun p =>
    match m p with
    | (Ret a, p') => k a p'
    | (Exited s, p') => (Exited s, p')
    | (Killed s, p') => (Killed s, p')
    | (Running, p') => (Running, p')
    end.

Declare Scope prog_scope.
Delimit Scope prog_scope with prog.
Notation "x <- m ;; k" := (bind m (fun x => k))
  (at level 100, m at next level, right associativity) : prog_scope.
Notation "m ;; k" := (bind m (fun _ => k))
  (at level 100, right associativity) : prog_scope.

(** The status with which the process ended, when [main] is the
    computation: returning from [main] ends the process too. *)
Definition exit_status (o : outcome Z) : option Z :=
  match o with
  | Ret s => Some s
  | Exited s => Some s
  | Killed _ => None
  | Running => None
  end.

(** ** The program *)

Section Program.

Variable w : os.

Local Open Scope prog_scope.

(** *** System and library calls *)

Definition openlog (ident : string) (option facility : Z) : M unit :=
  fun p => (Ret tt, set_log_chan (Some (ident, option, facility))
                      (emit (Openlog ident option facility) p)).

Definition syslog (priority : Z) (message : string) : M unit :=
  fun p => (Ret tt, emit (Syslog priority message) p).

Definition closelog : M unit :=
  fun p => (Ret tt, set_log_chan None (emit Closelog p)).

Definition exit {A : Type} (status : Z) : M A :=
  fun p => (Exited status, emit (Exit status) p).

Definition load_errno : M Z := fun p => (Ret (errno p), p).

Definition fork : M Z :=
  fun p =>
    let p' := emit Fork p in
    (Ret (fork_ret w), if fork_ret w <? 0 then set_errno (fork_errno w) p' else p').

Definition setsid : M Z :=
  fun p =>
    let p' := emit Setsid p in
    (Ret (setsid_ret w), if setsid_ret w <? 0 then set_errno (setsid_errno w) p' else p').

Definition close (fd : Z) : M Z :=
  fun p => (Ret 0, closed fd p).

Definition umask (cmask : Z) : M Z :=
  fun p => (Ret (fmask p), set_fmask (Z.land cmask 511) (emit (Umask cmask) p)).

Definition chdir (path : string) : M Z :=
  fun p =>
    let p' := emit (Chdir path) p in
    (Ret (chdir_ret w),
     if chdir_ret w =? 0 then set_cwd path p' else set_errno (chdir_errno w) p').

Definition time : M Z :=
  fun p => (Ret (clock w (naps p)), emit GetTime p).

(** *** The signal handler *)

Definition _signal_handler (signal : Z) : M unit :=
  if signal =? SIGHUP then
    ret tt
  else if signal =? SIGTERM then
    syslog LOG_INFO "received SIGTERM - exiting." ;;
    closelog ;;
    exit OK
  else
    syslog LOG_INFO "received unhandled signal.".

Definition run_handler (h : sighandler) : Z -> M unit :=
  match h with
  | Fn_signal_handler => _signal_handler
  end.

Definition signal (signum : Z) (handler : sighandler) : M unit :=
  fun p => (Ret tt, installed signum handler p).

(** *** Signal delivery *)

(** The kernel delivers [signum]: the installed handler runs, and
    without one the default action is taken. *)
Definition deliver (signum : Z) : M unit :=
  fun p =>
    match handlers p !! signum with
    | Some h => run_handler h signum (emit (Caught signum) p)
    | None => if sig_dfl_fatal w signum then (Killed signum, p) else (Ret tt, p)
    end.

Fixpoint deliver_all (signums : list Z) : M unit :=
  match signums with
  | [] => ret tt
  | s :: rest => deliver s ;; deliver_all rest
  end.

(** [sleep] is where the process waits, and where the signals that
    arrive meanwhile are delivered; the arrival of a signal between two
    other calls is not represented. *)
Definition sleep (seconds : Z) : M Z :=
  fun p =>
    (deliver_all (arrivals w (naps p)) ;; ret 0)
      (set_naps (S (naps p)) (emit (Sleep seconds) p)).

(** *** The periodic logger *)

(** [while (1)] has no exit of its own; [fuel] bounds the iterations
    observed, and a loop that is observed no further is [Running]. *)
Fixpoint _log_time (fuel : nat) : M unit :=
  match fuel with
  | O => fun p => (Running, p)
  | S fuel' =>
      rawtime <- time ;;
      let timeinfo := localtime w rawtime in
      syslog LOG_INFO (format_s "Current system time is: %s" (asctime w timeinfo)) ;;
      sleep LOG_INTERVAL ;;
      _log_time fuel'
  end.

(** *** main *)

Definition store_app_name (v : option nat) : M unit :=
  fun p => (Ret tt, set_app_name v p).

Definition load_app_name : M (option nat) :=
  fun p => (Ret (app_name p), p).

(** The string [app_name] points to, inside [argv0]. *)
Definition app_name_str (argv0 : string) (a : option nat) : string :=
  match a with
  | Some q => c_str argv0 q
  | None => EmptyString
  end.

(** [argv0] is [argv[0]]; [argc] and the other arguments are not used. *)
Definition main (argv0 : string) (fuel : nat) : M Z :=
  store_app_name (strrchr argv0 "/") ;;
  a <- load_app_name ;;
  match a with
  | Some q => store_app_name (Some (S q))
  | None => store_app_name (Some O)
  end ;;
  a <- load_app_name ;;
  openlog (app_name_str argv0 a) (Z.lor (Z.lor LOG_PID LOG_NDELAY) LOG_NOWAIT) LOG_DAEMON ;;
  syslog LOG_INFO (format_s "Starting %s" (app_name_str argv0 a)) ;;
  pid <- fork ;;
  if pid <? 0 then
    e <- load_errno ;;
    syslog LOG_ERR (format_s ERROR_FORMAT (strerror w e)) ;;
    ret ERR_FORK
  else
    sid <- setsid ;;
    if sid <? -1 then
      e <- load_errno ;;
      syslog LOG_ERR (format_s ERROR_FORMAT (strerror w e)) ;;
      ret ERR_SETSID
    else if 0 <? pid then
      ret OK
    else
      close STDIN_FILENO ;;
      close STDOUT_FILENO ;;
      close STDERR_FILENO ;;
      umask (Z.lor (Z.lor (Z.lor S_IRUSR S_IWUSR) S_IRGRP) S_IROTH) ;;
      r <- chdir "/" ;;
      if negb (r =? 0) then
        e <- load_errno ;;
        syslog LOG_ERR (format_s ERROR_FORMAT (strerror w e)) ;;
        ret ERR_CHDIR
      else
        signal SIGHUP Fn_signal_handler ;;
        signal SIGTERM Fn_signal_handler ;;
        _log_time fuel ;;
        ret ERR_WTF.

End Program.

(** ** The states [main] goes through *)

(** The offset [main] leaves in [app_name], and the tag it passes to
    [openlog]. *)
Definition app_name_of (argv0 : string) : nat :=
  match strrchr argv0 "/" with
  | Some q => S q
  | None => O
  end.

Definition tag_of (argv0 : string) : string := c_str argv0 (app_name_of argv0).

Section States.

Variables (w : os) (argv0 : string) (p : proc).

(** The process after [openlog] and the first [syslog]. *)
Definition logged : proc :=
  emit (Syslog LOG_INFO (format_s "Starting %s" (tag_of argv0)))
    (set_log_chan
       (Some (tag_of argv0, Z.lor (Z.lor LOG_PID LOG_NDELAY) LOG_NOWAIT, LOG_DAEMON))
       (emit (Openlog (tag_of argv0) (Z.lor (Z.lor LOG_PID LOG_NDELAY) LOG_NOWAIT) LOG_DAEMON)
          (set_app_name (Some (app_name_of argv0))
             (set_app_name (strrchr argv0 "/") p)))).

(** The process after [fork] and [setsid], when [fork] did not fail. *)
Definition sessioned : proc :=
  let p' := emit Setsid (emit Fork logged) in
  if setsid_ret w <? 0 then set_errno (setsid_errno w) p' else p'.

(** The child after closing the standard streams and setting the mask. *)
Definition detached : proc :=
  set_fmask (Z.land (Z.lor (Z.lor (Z.lor S_IRUSR S_IWUSR) S_IRGRP) S_IROTH) 511)
    (emit (Umask (Z.lor (Z.lor (Z.lor S_IRUSR S_IWUSR) S_IRGRP) S_IROTH))
       (closed STDERR_FILENO (closed STDOUT_FILENO (closed STDIN_FILENO sessioned)))).

(** The daemon as it enters the loop. *)
Definition daemonized : proc :=
  installed SIGTERM Fn_signal_handler
    (installed SIGHUP Fn_signal_handler
       (set_cwd "/" (emit (Chdir "/") detached))).

End States.

(** ** Predicates on processes and computations *)

(** [keeps I m]: running [m] in a process that satisfies [I] leaves a
    process that satisfies [I], however [m] ends. *)
Definition keeps {A : Type} (I : proc -> Prop) (m : M A) : Prop :=
  forall p, I p -> I (snd (m p)).

(** [grows p p']: [p'] differs from [p] only by what logging, sleeping
    and failing calls change; the calls of [p] are a prefix of those of
    [p']. *)
Record grows (p p' : proc) : Prop := {
  grows_app_name : app_name p' = app_name p;
  grows_open_fds : open_fds p' = open_fds p;
  grows_fmask : fmask p' = fmask p;
  grows_cwd : cwd p' = cwd p;
  grows_handlers : handlers p' = handlers p;
  grows_calls : exists l, calls p' = calls p ++ l
}.

(** What a handler installed by [main] may leave among the calls: a
    handler is entered for [SIGHUP] or [SIGTERM] only, and the record of
    the default branch is not written. *)
Definition from_installed (c : call) : Prop :=
  match c with
  | Caught s => s = SIGHUP \/ s = SIGTERM
  | Syslog _ m => m <> "received unhandled signal."
  | _ => True
  end.

(** Handlers are installed for [SIGHUP] and [SIGTERM] at most, and
    the calls so far are [from_installed]. *)
Definition tame (p : proc) : Prop :=
  (forall s h, handlers p !! s = Some h -> s = SIGHUP \/ s = SIGTERM)
  /\ Forall from_installed (calls p).

(** The five ways through [main], by what the operating system
    answers. *)
Inductive main_view (w : os) (argv0 : string) (fuel : nat) (p : proc) :
  outcome Z * proc -> Prop :=
| View_fork_failed :
    fork_ret w < 0 ->
    main_view w argv0 fuel p
      (Ret ERR_FORK,
       emit (Syslog LOG_ERR (format_s ERROR_FORMAT (strerror w (fork_errno w))))
         (set_errno (fork_errno w) (emit Fork (logged argv0 p))))
| View_setsid_branch :
    0 <= fork_ret w -> setsid_ret w < -1 ->
    main_view w argv0 fuel p
      (Ret ERR_SETSID,
       emit (Syslog LOG_ERR (format_s ERROR_FORMAT (strerror w (setsid_errno w))))
         (set_errno (setsid_errno w) (emit Setsid (emit Fork (logged argv0 p)))))
| View_parent :
    0 < fork_ret w -> -1 <= setsid_ret w ->
    main_view w argv0 fuel p (Ret OK, sessioned w argv0 p)
| View_chdir_failed :
    fork_ret w = 0 -> -1 <= setsid_ret w -> chdir_ret w <> 0 ->
    main_view w argv0 fuel p
      (Ret ERR_CHDIR,
       emit (Syslog LOG_ERR (format_s ERROR_FORMAT (strerror w (chdir_errno w))))
         (set_errno (chdir_errno w) (emit (Chdir "/") (detached w argv0 p))))
| View_daemon :
    fork_ret w = 0 -> -1 <= setsid_ret w -> chdir_ret w = 0 ->
    main_view w argv0 fuel p
      (bind (_log_time w fuel) (fun _ => ret ERR_WTF) (daemonized w argv0 p)).

(** ** Sample answers of the operating system *)

Definition sample_os (forked sid changed : Z) (sigs : nat -> list Z) : os :=
  {| fork_ret := forked; fork_errno := 11;
     setsid_ret := sid; setsid_errno := 1;
     chdir_ret := changed; chdir_errno := 13;
     strerror := fun e =>
       if e =? 11 then "Resource temporarily unavailable"
       else if e =? 13 then "Permission denied"
       else "Operation not permitted";
     clock := fun n => 1625089748 + Z.of_nat n;
     localtime := fun t =>
       {| tm_sec := t mod 60; tm_min := (t / 60) mod 60; tm_hour := (t / 3600) mod 24;
          tm_mday := 30; tm_mon := 5; tm_year := 121; tm_wday := 3; tm_yday := 180;
          tm_isdst := 0 |};
     asctime := fun t => "Wed Jun 30 21:49:08 2021";
     arrivals := sigs;
     sig_dfl_fatal := fun _ => true |}.

Definition no_signal : nat -> list Z := fun _ => [].

(** [fork] fails. *)
Definition os_fork_fails : os := sample_os (-1) (-1) 0 no_signal.
(** The launching process: [fork] gives it the child's pid, and
    [setsid] refuses, the caller being a process group leader. *)
Definition os_parent : os := sample_os 4242 (-1) 0 no_signal.
(** The child, everything succeeding. *)
Definition os_child : os := sample_os 0 4242 0 no_signal.
(** The child, [chdir] failing. *)
Definition os_chdir_fails : os := sample_os 0 4242 (-1) no_signal.
(** The child, [setsid] failing. *)
Definition os_setsid_fails : os := sample_os 0 (-1) 0 no_signal.

(** ** Observations of a run *)

(** A process that went on after the fork step: it closed its standard
    input, the first call after the parent's exit. *)
Definition closes_stdin (c : call) : bool :=
  match c with
  | Close fd => fd =? STDIN_FILENO
  | _ => false
  end.

Definition went_on (r : outcome Z * proc) : bool :=
  existsb closes_stdin (calls (snd r)).

(** A process ended by [exit] was ended with status [OK]. *)
Definition exits_ok {A : Type} (o : outcome A) : Prop :=
  match o with
  | Exited s => s = OK
  | _ => True
  end.

(** The calls of one iteration that starts after [k] sleeps, and of [n]
    iterations in a row. *)
Definition iteration (w : os) (k : nat) : list call :=
  [GetTime;
   Syslog LOG_INFO
     (format_s "Current system time is: %s" (asctime w (localtime w (clock w k))));
   Sleep LOG_INTERVAL].

Fixpoint iterations (w : os) (k n : nat) : list call :=
  match n with
  | O => []
  | S n' => iteration w k ++ iterations w (S k) n'
  end.

(** The same operating system with other signals arriving. *)
Definition with_arrivals (sigs : nat -> list Z) (w : os) : os :=
  {| fork_ret := fork_ret w; fork_errno := fork_errno w;
     setsid_ret := setsid_ret w; setsid_errno := setsid_errno w;
     chdir_ret := chdir_ret w; chdir_errno := chdir_errno w;
     strerror := strerror w; clock := clock w; localtime := localtime w;
     asctime := asctime w; arrivals := sigs; sig_dfl_fatal := sig_dfl_fatal w |}.

(** Without any signal. *)
Definition quiet (w : os) : os := with_arrivals no_signal w.

(** With a [SIGHUP] during every sleep. *)
Definition hup_each_sleep : nat -> list Z := fun _ => [SIGHUP].

(** ** Outcome-dependent specifications *)

(** An outcome without its value. *)
Definition forget {A : Type} (o : outcome A) : outcome unit :=
  match o with
  | Ret _ => Ret tt
  | Exited s => Exited s
  | Killed s => Killed s
  | Running => Running
  end.

(** [triple P m R E]: from a process that satisfies [P], [m] either
    returns [a] in a process that satisfies [R a], or ends otherwise, as
    [o], in a process that satisfies [E o]. *)
Definition triple {A : Type} (P : proc -> Prop) (m : M A)
    (R : A -> proc -> Prop) (E : outcome unit -> proc -> Prop) : Prop :=
  forall p, P p ->
    match fst (m p) with
    | Ret a => R a (snd (m p))
    | o => E (forget o) (snd (m p))
    end.

(** The calls of an orderly shutdown: the handler entered for
    [SIGTERM], its record, the log closed, the exit. *)
Definition shutdown : list call :=
  [Caught SIGTERM; Syslog LOG_INFO "received SIGTERM - exiting."; Closelog; Exit OK].

(** Since the calls [base], the log was not closed and the process did
    not exit. *)
Definition open_run (base : list call) (q : proc) : Prop :=
  exists l, calls q = base ++ l /\ ~ In Closelog l /\ ~ In (Exit OK) l.

(** Since the calls [base], the process did nothing of the kind until
    it shut down in order; its log is closed. *)
Definition shut_run (base : list call) (q : proc) : Prop :=
  exists l, calls q = base ++ l ++ shutdown
            /\ ~ In Closelog l /\ ~ In (Exit OK) l /\ log_chan q = None.

Definition ends_by_shutdown (base : list call) (o : outcome unit) (q : proc) : Prop :=
  match o with
  | Exited s => s = OK /\ shut_run base q
  | _ => open_run base q
  end.





(** A record at priority [LOG_ERR], and a process that wrote none. *)
Definition error_record (c : call) : bool :=
  match c with
  | Syslog priority _ => priority =? LOG_ERR
  | _ => false
  end.

Definition no_error_record (q : proc) : Prop :=
  existsb error_record (calls q) = false.


(** A [SIGTERM] during the sleep after [k] sleeps, no signal otherwise;
    a [SIGINT] (2) there instead. *)
Definition sigterm_at (k : nat) : nat -> list Z :=
  fun n => if Nat.eqb n k then [SIGTERM] else [].


(** * Properties *)

(** ** Running [main] up to the loop *)

(** A first computation that returns hands over to the rest. *)
Lemma bind_Ret {A B : Type} (m : M A) (k : A -> M B) (p : proc) (a : A) (p' : proc) :
  m p = (Ret a, p') -> bind m k p = k a p'.
Proof. intros H. unfold bind. rewrite H. reflexivity. Qed.

(** One statement of a sequence that returns: go on with the rest. *)
Ltac step := erewrite bind_Ret by reflexivity.

(** Evaluate the calls and the field updates, and nothing else. *)
Ltac run :=
  cbn [_signal_handler run_handler deliver deliver_all sleep
       bind ret openlog syslog closelog exit load_errno fork setsid close umask
       chdir time signal store_app_name load_app_name app_name_str
       emit set_app_name set_errno set_log_chan set_open_fds
       set_fmask set_cwd set_handlers set_naps
       app_name errno log_chan open_fds fmask cwd handlers naps calls
       fst snd].

Section Prefix.

Variables (w : os) (argv0 : string) (p : proc).

Lemma main_fork_failed fuel :
  fork_ret w < 0 ->
  main w argv0 fuel p =
    (Ret ERR_FORK,
     emit (Syslog LOG_ERR (format_s ERROR_FORMAT (strerror w (fork_errno w))))
       (set_errno (fork_errno w) (emit Fork (logged argv0 p)))).
Proof.
  intros Hf. unfold main.
  step. step.
  erewrite (bind_Ret _ _ _ tt
              (set_app_name (Some (app_name_of argv0)) (set_app_name (strrchr argv0 "/") p)))
    by (unfold app_name_of; cbn [app_name set_app_name];
        destruct (strrchr argv0 "/"); reflexivity).
  step. step. step. step.
  apply Z.ltb_lt in Hf. rewrite Hf. cbv iota.
  step. step. reflexivity.
Qed.

Lemma main_setsid_branch fuel :
  0 <= fork_ret w ->
  setsid_ret w < -1 ->
  main w argv0 fuel p =
    (Ret ERR_SETSID,
     emit (Syslog LOG_ERR (format_s ERROR_FORMAT (strerror w (setsid_errno w))))
       (set_errno (setsid_errno w) (emit Setsid (emit Fork (logged argv0 p))))).
Proof.
  intros Hf Hs. unfold main.
  step. step.
  erewrite (bind_Ret _ _ _ tt
              (set_app_name (Some (app_name_of argv0)) (set_app_name (strrchr argv0 "/") p)))
    by (unfold app_name_of; cbn [app_name set_app_name];
        destruct (strrchr argv0 "/"); reflexivity).
  step. step. step. step.
  apply Z.ltb_ge in Hf. rewrite Hf. cbv iota. step.
  assert (Hs0 : (setsid_ret w <? 0) = true) by (apply Z.ltb_lt; lia).
  apply Z.ltb_lt in Hs. rewrite Hs, Hs0. cbv iota.
  step. step. reflexivity.
Qed.

Lemma main_parent fuel :
  0 < fork_ret w ->
  -1 <= setsid_ret w ->
  main w argv0 fuel p = (Ret OK, (sessioned w argv0 p)).
Proof.
  intros Hf Hs. unfold main.
  step. step.
  erewrite (bind_Ret _ _ _ tt
              (set_app_name (Some (app_name_of argv0)) (set_app_name (strrchr argv0 "/") p)))
    by (unfold app_name_of; cbn [app_name set_app_name];
        destruct (strrchr argv0 "/"); reflexivity).
  step. step. step. step.
  assert (Hf0 : (fork_ret w <? 0) = false) by (apply Z.ltb_ge; lia).
  rewrite Hf0. cbv iota. step.
  apply Z.ltb_lt in Hf. apply Z.ltb_ge in Hs. rewrite Hs, Hf. cbv iota.
  reflexivity.
Qed.

Lemma main_chdir_failed fuel :
  fork_ret w = 0 ->
  -1 <= setsid_ret w ->
  chdir_ret w <> 0 ->
  main w argv0 fuel p =
    (Ret ERR_CHDIR,
     emit (Syslog LOG_ERR (format_s ERROR_FORMAT (strerror w (chdir_errno w))))
       (set_errno (chdir_errno w) (emit (Chdir "/") (detached w argv0 p)))).
Proof.
  intros Hf Hs Hc. unfold main.
  step. step.
  erewrite (bind_Ret _ _ _ tt
              (set_app_name (Some (app_name_of argv0)) (set_app_name (strrchr argv0 "/") p)))
    by (unfold app_name_of; cbn [app_name set_app_name];
        destruct (strrchr argv0 "/"); reflexivity).
  step. step. step. step.
  rewrite Hf. change (0 <? 0) with false. cbv iota. step.
  apply Z.ltb_ge in Hs. rewrite Hs. cbv iota.
  step. step. step. step. step.
  apply Z.eqb_neq in Hc. rewrite Hc. cbn [negb]. cbv iota.
  step. step. reflexivity.
Qed.

Lemma main_daemon fuel :
  fork_ret w = 0 ->
  -1 <= setsid_ret w ->
  chdir_ret w = 0 ->
  main w argv0 fuel p = bind (_log_time w fuel) (fun _ => ret ERR_WTF) (daemonized w argv0 p).
Proof.
  intros Hf Hs Hc. unfold main.
  step. step.
  erewrite (bind_Ret _ _ _ tt
              (set_app_name (Some (app_name_of argv0)) (set_app_name (strrchr argv0 "/") p)))
    by (unfold app_name_of; cbn [app_name set_app_name];
        destruct (strrchr argv0 "/"); reflexivity).
  step. step. step. step.
  rewrite Hf. change (0 <? 0) with false. cbv iota. step.
  apply Z.ltb_ge in Hs. rewrite Hs. cbv iota.
  step. step. step. step. step.
  rewrite Hc. change (negb (0 =? 0)) with false. cbv iota.
  step. step. reflexivity.
Qed.

End Prefix.

(** ** Reasoning about computations *)

Lemma keeps_ret {A : Type} (I : proc -> Prop) (a : A) : keeps I (ret a).
Proof. intros p H. exact H. Qed.

Lemma keeps_bind {A B : Type} (I : proc -> Prop) (m : M A) (k : A -> M B) :
  keeps I m -> (forall a, keeps I (k a)) -> keeps I (bind m k).
Proof.
  intros Hm Hk p H. unfold bind.
  specialize (Hm p H). destruct (m p) as [[a | s | s | ] p']; cbn [snd] in *; auto.
  apply Hk; exact Hm.
Qed.

Lemma bind_never_returns {A B : Type} (m : M A) (k : A -> M B) (p : proc) (b : B) :
  (forall a p', fst (k a p') <> Ret b) -> fst (bind m k p) <> Ret b.
Proof.
  intros Hk. unfold bind.
  destruct (m p) as [[a | s | s | ] p']; cbn [fst]; try discriminate. apply Hk.
Qed.

Lemma grows_refl p : grows p p.
Proof. split; try reflexivity. exists []. symmetry. apply app_nil_r. Qed.

Lemma grows_trans p q r : grows p q -> grows q r -> grows p r.
Proof.
  intros [a1 b1 c1 d1 e1 [l1 f1]] [a2 b2 c2 d2 e2 [l2 f2]].
  split; try congruence.
  exists (l1 ++ l2). rewrite f2, f1. symmetry. apply app_assoc.
Qed.

Lemma grows_emit c p : grows p (emit c p).
Proof. split; try reflexivity. exists [c]. reflexivity. Qed.

Lemma grows_set_log_chan v p : grows p (set_log_chan v p).
Proof. split; try reflexivity. exists []. symmetry. apply app_nil_r. Qed.

Lemma grows_set_naps v p : grows p (set_naps v p).
Proof. split; try reflexivity. exists []. symmetry. apply app_nil_r. Qed.

Lemma grows_set_errno v p : grows p (set_errno v p).
Proof. split; try reflexivity. exists []. symmetry. apply app_nil_r. Qed.

(** A step that grows every process keeps [grows p0]. *)
Lemma keeps_grows {A : Type} (m : M A) (p0 : proc) :
  (forall p, grows p (snd (m p))) -> keeps (grows p0) m.
Proof. intros H p Hp. eapply grows_trans; [exact Hp | apply H]. Qed.

Lemma tame_emit c p : from_installed c -> tame p -> tame (emit c p).
Proof.
  intros Hc [Hh Hl]. split; [exact Hh |].
  cbn [calls emit]. apply Forall_app. split; [exact Hl | constructor; [exact Hc | constructor]].
Qed.

Section Loop.

Variable w : os.

Lemma handler_grows signal p : grows p (snd (_signal_handler signal p)).
Proof.
  unfold _signal_handler.
  destruct (signal =? SIGHUP); [apply grows_refl |].
  destruct (signal =? SIGTERM); run.
  - eapply grows_trans; [| apply grows_emit].
    eapply grows_trans; [| apply grows_set_log_chan].
    eapply grows_trans; apply grows_emit.
  - apply grows_emit.
Qed.

Lemma deliver_grows signum p : grows p (snd (deliver w signum p)).
Proof.
  unfold deliver. destruct (handlers p !! signum) as [[]|].
  - cbn [run_handler]. eapply grows_trans; [apply (grows_emit (Caught signum)) | apply handler_grows].
  - destruct (sig_dfl_fatal w signum); apply grows_refl.
Qed.

Lemma deliver_all_grows signums p : grows p (snd (deliver_all w signums p)).
Proof.
  revert p. induction signums as [| s rest IH]; intros p.
  - apply grows_refl.
  - cbn [deliver_all]. apply (keeps_bind (grows p)); [| intros _; apply keeps_grows; exact IH | apply grows_refl].
    apply keeps_grows. apply deliver_grows.
Qed.

Lemma sleep_grows seconds p : grows p (snd (sleep w seconds p)).
Proof.
  unfold sleep.
  apply (keeps_bind (grows p)).
  - apply keeps_grows, deliver_all_grows.
  - intros _. apply keeps_ret.
  - eapply grows_trans; [apply grows_emit | apply grows_set_naps].
Qed.

Lemma log_time_grows fuel p : grows p (snd (_log_time w fuel p)).
Proof.
  revert p. induction fuel as [| fuel IH]; intros p.
  - apply grows_refl.
  - cbn [_log_time].
    apply (keeps_bind (grows p)); [| | apply grows_refl].
    { apply keeps_grows. intros q. apply grows_emit. }
    intros rawtime. apply keeps_bind.
    { apply keeps_grows. intros q. apply grows_emit. }
    intros _. apply keeps_bind.
    { apply keeps_grows. apply sleep_grows. }
    intros _. apply keeps_grows. exact IH.
Qed.

(** The loop has no way out through its end. *)
Lemma log_time_never_returns fuel p u : fst (_log_time w fuel p) <> Ret u.
Proof.
  revert p. induction fuel as [| fuel IH]; intros p.
  - discriminate.
  - cbn [_log_time].
    apply bind_never_returns. intros rawtime p1.
    apply bind_never_returns. intros _ p2.
    apply bind_never_returns. intros _ p3.
    apply IH.
Qed.

(** One iteration, up to its sleep. *)
Lemma log_time_step n p :
  _log_time w (S n) p
  = bind (sleep w LOG_INTERVAL) (fun _ => _log_time w n)
      (emit (Syslog LOG_INFO
               (format_s "Current system time is: %s"
                  (asctime w (localtime w (clock w (naps p))))))
         (emit GetTime p)).
Proof. reflexivity. Qed.

End Loop.

(** ** The last path component *)

Lemma strrchr_none s c : strrchr s c = None -> occurs c s = false.
Proof.
  induction s as [| a s IH]; cbn [strrchr occurs]; [reflexivity |].
  destruct (strrchr s c); [discriminate |].
  destruct (Ascii.eqb a c); [discriminate |].
  intros _. apply IH. reflexivity.
Qed.

Lemma occurs_strrchr s c : occurs c s = false -> strrchr s c = None.
Proof.
  induction s as [| a s IH]; cbn [strrchr occurs]; [reflexivity |].
  intros H. apply orb_false_iff in H as [Ha Hs].
  rewrite (IH Hs), Ha. reflexivity.
Qed.

Lemma strrchr_some s c i :
  strrchr s c = Some i ->
  exists pre, s = String.append pre (String c (c_str s (S i)))
              /\ occurs c (c_str s (S i)) = false.
Proof.
  revert i. induction s as [| a s IH]; intros i; cbn [strrchr]; [discriminate |].
  destruct (strrchr s c) as [j |] eqn:E.
  - intros [= <-]. destruct (IH j eq_refl) as (pre & Hs & Ho).
    exists (String a pre). split; [| exact Ho].
    change (String a s = String a (String.append pre (String c (c_str s (S j))))).
    f_equal. exact Hs.
  - destruct (Ascii.eqb a c) eqn:Ea; [| discriminate].
    intros [= <-]. apply Ascii.eqb_eq in Ea. subst a.
    exists EmptyString. split; [reflexivity |].
    cbn [c_str]. apply strrchr_none. exact E.
Qed.

(** ** How [main] ends *)

Lemma main_viewP w argv0 fuel p : main_view w argv0 fuel p (main w argv0 fuel p).
Proof.
  destruct (Z.lt_trichotomy (fork_ret w) 0) as [Hf | [Hf | Hf]].
  - rewrite main_fork_failed by exact Hf. apply View_fork_failed; exact Hf.
  - destruct (Z_lt_le_dec (setsid_ret w) (-1)) as [Hs | Hs].
    + rewrite main_setsid_branch by lia. apply View_setsid_branch; lia.
    + destruct (Z.eq_dec (chdir_ret w) 0) as [Hc | Hc].
      * rewrite main_daemon by assumption. apply View_daemon; assumption.
      * rewrite main_chdir_failed by assumption. apply View_chdir_failed; assumption.
  - destruct (Z_lt_le_dec (setsid_ret w) (-1)) as [Hs | Hs].
    + rewrite main_setsid_branch by lia. apply View_setsid_branch; lia.
    + rewrite main_parent by assumption. apply View_parent; assumption.
Qed.

(** The loop entered from [main] does not reach the statement after it. *)
Lemma loop_then_never_returns w fuel p s :
  fst (bind (_log_time w fuel) (fun _ => ret ERR_WTF) p) <> Ret s.
Proof.
  unfold bind. pose proof (log_time_never_returns w fuel p) as H.
  destruct (_log_time w fuel p) as [[[] | x | x | ] p']; cbn [fst] in *;
    try discriminate.
  exfalso. apply (H tt). reflexivity.
Qed.

Lemma loop_then_grows w fuel p :
  grows p (snd (bind (_log_time w fuel) (fun _ => ret ERR_WTF) p)).
Proof.
  apply (keeps_bind (grows p)); [| intros _; apply keeps_ret | apply grows_refl].
  apply keeps_grows. apply log_time_grows.
Qed.

(** ** The signal handler *)

(** C4.  Dispatched [SIGTERM], the handler writes the informational
    record of the shutdown, then closes the log, then ends the process
    with status [OK], in this order; so does the delivery of [SIGTERM] to
    the daemon, where the handler is installed. *)
Theorem sigterm_logs_closes_exits :
  forall (w : os) (argv0 : string) (p : proc),
    fst (_signal_handler SIGTERM p) = Exited OK
    /\ calls (snd (_signal_handler SIGTERM p))
       = calls p ++ [Syslog LOG_INFO "received SIGTERM - exiting."; Closelog; Exit OK]
    /\ log_chan (snd (_signal_handler SIGTERM p)) = None
    /\ deliver w SIGTERM (daemonized w argv0 p)
       = _signal_handler SIGTERM (emit (Caught SIGTERM) (daemonized w argv0 p)).
Proof.
  intros w argv0 p. repeat split.
  - cbn. rewrite <- !app_assoc. reflexivity.
  - unfold deliver, daemonized, installed. cbn [handlers set_handlers].
    rewrite lookup_insert_eq. reflexivity.
Qed.

(** A sleep of the daemon interrupted by [SIGHUP] returns. *)
Lemma sleep_sighup w seconds p :
  handlers p !! SIGHUP = Some Fn_signal_handler ->
  sleep (with_arrivals hup_each_sleep w) seconds p
  = (Ret 0, emit (Caught SIGHUP) (set_naps (S (naps p)) (emit (Sleep seconds) p))).
Proof.
  intros H. unfold sleep. cbn [arrivals with_arrivals hup_each_sleep deliver_all].
  unfold bind, deliver. cbn [handlers set_naps emit]. rewrite H. reflexivity.
Qed.

(** With a [SIGHUP] at every sleep the loop of the daemon keeps running. *)
Lemma log_time_survives_sighup w fuel :
  forall p,
    handlers p !! SIGHUP = Some Fn_signal_handler ->
    fst (_log_time (with_arrivals hup_each_sleep w) fuel p) = Running.
Proof.
  induction fuel as [| fuel IH]; intros p H; [reflexivity |].
  rewrite log_time_step. unfold bind. rewrite sleep_sighup by exact H.
  apply IH. exact H.
Qed.

(** C8.  Dispatched [SIGHUP], the handler returns to the interrupted
    code and leaves the process as it was: no record, no call, the log
    still open.  Delivered to the daemon, [SIGHUP] changes nothing but the
    note that the handler was entered, and with a [SIGHUP] at every sleep
    the loop goes on. *)
Theorem sighup_changes_nothing :
  forall (w : os) (argv0 : string) (fuel : nat) (p : proc),
    _signal_handler SIGHUP p = (Ret tt, p)
    /\ fst (_log_time (with_arrivals hup_each_sleep w) fuel (daemonized w argv0 p)) = Running
    /\ deliver w SIGHUP (daemonized w argv0 p)
       = (Ret tt, emit (Caught SIGHUP) (daemonized w argv0 p))
    /\ log_chan (snd (deliver w SIGHUP (daemonized w argv0 p)))
       = Some (tag_of argv0, Z.lor (Z.lor LOG_PID LOG_NDELAY) LOG_NOWAIT, LOG_DAEMON).
Proof.
  intros w argv0 fuel p.
  assert (L : handlers (daemonized w argv0 p) !! SIGHUP = Some Fn_signal_handler).
  { unfold daemonized, installed. cbn [handlers set_handlers emit].
    rewrite lookup_insert_ne by discriminate. apply lookup_insert_eq. }
  assert (E : deliver w SIGHUP (daemonized w argv0 p)
              = (Ret tt, emit (Caught SIGHUP) (daemonized w argv0 p))).
  { unfold deliver. rewrite L. reflexivity. }
  split; [reflexivity |].
  split; [apply log_time_survives_sighup; exact L |].
  split; [exact E |].
  rewrite E. unfold daemonized, detached, sessioned.
  destruct (setsid_ret w <? 0); reflexivity.
Qed.

(** ** The daemonization sequence *)

(** C5.  When [fork] returns a negative value, [main] logs the error
    description of the system at priority [LOG_ERR] and returns
    [ERR_FORK]; no call follows: no [setsid], no [close], no [umask], no
    [chdir], no [signal]. *)
Theorem fork_failure_exits_ERR_FORK :
  forall (w : os) (argv0 : string) (fuel : nat) (dir : string) (m : Z),
    fork_ret w < 0 ->
    fst (main w argv0 fuel (fresh dir m)) = Ret ERR_FORK
    /\ exit_status (fst (main w argv0 fuel (fresh dir m))) = Some 3
    /\ calls (snd (main w argv0 fuel (fresh dir m)))
       = [Openlog (tag_of argv0) (Z.lor (Z.lor LOG_PID LOG_NDELAY) LOG_NOWAIT) LOG_DAEMON;
          Syslog LOG_INFO (format_s "Starting %s" (tag_of argv0));
          Fork;
          Syslog LOG_ERR (format_s ERROR_FORMAT (strerror w (fork_errno w)))].
Proof.
  intros w argv0 fuel dir m H.
  rewrite main_fork_failed by exact H. repeat split.
Qed.

Lemma fork_failure_exits_ERR_FORK_witness :
  fork_ret os_fork_fails < 0
  /\ fst (main os_fork_fails "/usr/sbin/sampled" 3 (fresh "/home" 18)) = Ret ERR_FORK
  /\ List.last (calls (snd (main os_fork_fails "/usr/sbin/sampled" 3 (fresh "/home" 18)))) Fork
     = Syslog LOG_ERR "An error occurred. The error is: Resource temporarily unavailable".
Proof.
  assert (H : fork_ret os_fork_fails < 0) by reflexivity.
  destruct (fork_failure_exits_ERR_FORK os_fork_fails "/usr/sbin/sampled" 3 "/home" 18 H)
    as (Hr & _ & Hc).
  split; [exact H |]. split; [exact Hr |]. rewrite Hc. reflexivity.
Defined.

(** C6.  When [chdir] is called and returns non-zero, [main] logs the
    error description of the system at priority [LOG_ERR] and returns
    [ERR_CHDIR]; the loop is not entered: no time is read, no sleep is
    made, no handler is installed. *)
Theorem chdir_failure_exits_ERR_CHDIR :
  forall (w : os) (argv0 : string) (fuel : nat) (dir : string) (m : Z),
    chdir_ret w <> 0 ->
    In (Chdir "/") (calls (snd (main w argv0 fuel (fresh dir m)))) ->
    fst (main w argv0 fuel (fresh dir m)) = Ret ERR_CHDIR
    /\ exit_status (fst (main w argv0 fuel (fresh dir m))) = Some 5
    /\ calls (snd (main w argv0 fuel (fresh dir m)))
       = [Openlog (tag_of argv0) (Z.lor (Z.lor LOG_PID LOG_NDELAY) LOG_NOWAIT) LOG_DAEMON;
          Syslog LOG_INFO (format_s "Starting %s" (tag_of argv0));
          Fork; Setsid;
          Close STDIN_FILENO; Close STDOUT_FILENO; Close STDERR_FILENO;
          Umask (Z.lor (Z.lor (Z.lor S_IRUSR S_IWUSR) S_IRGRP) S_IROTH);
          Chdir "/";
          Syslog LOG_ERR (format_s ERROR_FORMAT (strerror w (chdir_errno w)))]
    /\ naps (snd (main w argv0 fuel (fresh dir m))) = O
    /\ handlers (snd (main w argv0 fuel (fresh dir m))) = ∅.
Proof.
  intros w argv0 fuel dir m Hc Hin.
  destruct (main_viewP w argv0 fuel (fresh dir m)).
  - exfalso. cbn in Hin. intuition discriminate.
  - exfalso. cbn in Hin. intuition discriminate.
  - exfalso. unfold sessioned in Hin.
    destruct (setsid_ret w <? 0); cbn in Hin; intuition discriminate.
  - unfold detached, sessioned.
    destruct (setsid_ret w <? 0); repeat split.
  - contradiction.
Qed.

Lemma chdir_failure_exits_ERR_CHDIR_witness :
  chdir_ret os_chdir_fails <> 0
  /\ In (Chdir "/") (calls (snd (main os_chdir_fails "./sampled" 3 (fresh "/home" 18))))
  /\ fst (main os_chdir_fails "./sampled" 3 (fresh "/home" 18)) = Ret ERR_CHDIR
  /\ List.last (calls (snd (main os_chdir_fails "./sampled" 3 (fresh "/home" 18)))) Fork
     = Syslog LOG_ERR "An error occurred. The error is: Permission denied".
Proof.
  assert (H : chdir_ret os_chdir_fails <> 0) by discriminate.
  assert (Hin : In (Chdir "/")
                  (calls (snd (main os_chdir_fails "./sampled" 3 (fresh "/home" 18))))).
  { vm_compute. do 8 right. left. reflexivity. }
  destruct (chdir_failure_exits_ERR_CHDIR os_chdir_fails "./sampled" 3 "/home" 18 H Hin)
    as (Hr & _ & Hcalls & _).
  split; [exact H |]. split; [exact Hin |]. split; [exact Hr |].
  rewrite Hcalls. reflexivity.
Defined.

Lemma setsid_contract_ge w : setsid_contract w -> -1 <= setsid_ret w.
Proof. intros [H | H]; lia. Qed.

Lemma child_went_on w argv0 fuel dir m :
  fork_ret w = 0 -> -1 <= setsid_ret w ->
  went_on (main w argv0 fuel (fresh dir m)) = true.
Proof.
  intros Hf Hs. unfold went_on.
  destruct (main_viewP w argv0 fuel (fresh dir m)); try lia.
  - unfold detached, sessioned. destruct (setsid_ret w <? 0); reflexivity.
  - destruct (loop_then_grows w fuel (daemonized w argv0 (fresh dir m)))
      as [_ _ _ _ _ [l ->]].
    rewrite existsb_app. apply orb_true_iff. left.
    unfold daemonized, detached, sessioned. destruct (setsid_ret w <? 0); reflexivity.
Qed.

(** C3.  When [fork] returns a positive pid, this process, the parent,
    returns [OK] from [main] after [setsid] and makes no further call: its
    standard streams stay open, its mask and directory are as inherited,
    no handler is installed, no time is logged.  Of the parent and the
    child (the process in which [fork] returned 0), one goes on: the
    child. *)
Theorem parent_exits_OK_after_fork :
  forall (w wc : os) (argv0 : string) (fuel : nat) (dir : string) (m : Z),
    0 < fork_ret w -> setsid_contract w ->
    fork_ret wc = 0 -> setsid_contract wc ->
    fst (main w argv0 fuel (fresh dir m)) = Ret OK
    /\ exit_status (fst (main w argv0 fuel (fresh dir m))) = Some 0
    /\ calls (snd (main w argv0 fuel (fresh dir m)))
       = [Openlog (tag_of argv0) (Z.lor (Z.lor LOG_PID LOG_NDELAY) LOG_NOWAIT) LOG_DAEMON;
          Syslog LOG_INFO (format_s "Starting %s" (tag_of argv0));
          Fork; Setsid]
    /\ open_fds (snd (main w argv0 fuel (fresh dir m)))
       = {[ STDIN_FILENO; STDOUT_FILENO; STDERR_FILENO ]}
    /\ fmask (snd (main w argv0 fuel (fresh dir m))) = m
    /\ cwd (snd (main w argv0 fuel (fresh dir m))) = dir
    /\ handlers (snd (main w argv0 fuel (fresh dir m))) = ∅
    /\ naps (snd (main w argv0 fuel (fresh dir m))) = O
    /\ List.filter went_on
         [main w argv0 fuel (fresh dir m); main wc argv0 fuel (fresh dir m)]
       = [main wc argv0 fuel (fresh dir m)].
Proof.
  intros w wc argv0 fuel dir m Hf Hs Hfc Hsc.
  apply setsid_contract_ge in Hs. apply setsid_contract_ge in Hsc.
  pose proof (child_went_on wc argv0 fuel dir m Hfc Hsc) as Hchild.
  cbn [List.filter]. rewrite Hchild.
  rewrite (main_parent w argv0 (fresh dir m) fuel Hf Hs).
  unfold went_on, sessioned.
  destruct (setsid_ret w <? 0); repeat split.
Qed.

Lemma parent_exits_OK_after_fork_witness :
  0 < fork_ret os_parent
  /\ setsid_contract os_parent
  /\ fork_ret os_child = 0
  /\ setsid_contract os_child
  /\ fst (main os_parent "/usr/sbin/sampled" 3 (fresh "/home" 18)) = Ret OK
  /\ calls (snd (main os_parent "/usr/sbin/sampled" 3 (fresh "/home" 18)))
     = [Openlog "sampled" 25 24; Syslog 6 "Starting sampled"; Fork; Setsid].
Proof.
  assert (Hf : 0 < fork_ret os_parent) by reflexivity.
  assert (Hs : setsid_contract os_parent) by (left; reflexivity).
  assert (Hfc : fork_ret os_child = 0) by reflexivity.
  assert (Hsc : setsid_contract os_child) by (right; reflexivity).
  destruct (parent_exits_OK_after_fork os_parent os_child "/usr/sbin/sampled" 3
              "/home" 18 Hf Hs Hfc Hsc) as (Hr & _ & Hcalls & _).
  do 4 (split; [assumption |]). split; [exact Hr |].
  rewrite Hcalls. reflexivity.
Defined.

(** C1.  At a failing [setsid] (result -1, [errno] set) in the child,
    the test [setsid() < -1] is false: nothing is logged at [LOG_ERR], the
    status [ERR_SETSID] is not returned, and the daemon goes on to close
    the streams, install the handlers and log the time. *)
Theorem setsid_failure_not_detected :
  setsid_ret os_setsid_fails = -1
  /\ fst (main os_setsid_fails "/usr/sbin/sampled" 1 (fresh "/home" 18)) = Running
  /\ exit_status (fst (main os_setsid_fails "/usr/sbin/sampled" 1 (fresh "/home" 18)))
     <> Some ERR_SETSID
  /\ errno (snd (main os_setsid_fails "/usr/sbin/sampled" 1 (fresh "/home" 18))) = 1
  /\ calls (snd (main os_setsid_fails "/usr/sbin/sampled" 1 (fresh "/home" 18)))
     = [Openlog "sampled" 25 LOG_DAEMON; Syslog LOG_INFO "Starting sampled";
        Fork; Setsid;
        Close STDIN_FILENO; Close STDOUT_FILENO; Close STDERR_FILENO;
        Umask 420; Chdir "/";
        Signal SIGHUP Fn_signal_handler; Signal SIGTERM Fn_signal_handler;
        GetTime; Syslog LOG_INFO "Current system time is: Wed Jun 30 21:49:08 2021";
        Sleep LOG_INTERVAL].
Proof.
  repeat split; try reflexivity. vm_compute. discriminate.
Qed.

(** C7.  The mask [main] sets is 0644, so the bits it turns off in a
    new file are those of owner read/write and group/other read: a file
    created with mode 0666 gets 0022, one created with 0777 gets 0133, and
    neither is 0644. *)
Theorem umask_leaves_0022 :
  (forall w argv0 p, fmask (daemonized w argv0 p) = 420)
  /\ fmask (snd (main os_child "/usr/sbin/sampled" 1 (fresh "/home" 18))) = 420
  /\ created_mode
       (fmask (snd (main os_child "/usr/sbin/sampled" 1 (fresh "/home" 18)))) 438 = 18
  /\ created_mode
       (fmask (snd (main os_child "/usr/sbin/sampled" 1 (fresh "/home" 18)))) 511 = 91
  /\ created_mode
       (fmask (snd (main os_child "/usr/sbin/sampled" 1 (fresh "/home" 18)))) 438 <> 420.
Proof.
  split; [intros w argv0 p; reflexivity |].
  repeat split; try reflexivity. vm_compute. discriminate.
Qed.

(** C2.  The tag [main] passes to [openlog], which is the string
    [app_name] points to from then on, is the text after the last '/' of
    [argv0] when [argv0] has one, and all of [argv0] when it has none. *)
Theorem app_name_is_last_component :
  forall (w : os) (argv0 : string) (fuel : nat) (p : proc),
    (exists rest,
        calls (snd (main w argv0 fuel p))
        = calls p
          ++ Openlog (app_name_str argv0 (app_name (snd (main w argv0 fuel p))))
               (Z.lor (Z.lor LOG_PID LOG_NDELAY) LOG_NOWAIT) LOG_DAEMON :: rest)
    /\ (occurs "/" argv0 = true ->
        exists pre,
          argv0 = String.append pre
                    (String "/" (app_name_str argv0 (app_name (snd (main w argv0 fuel p)))))
          /\ occurs "/" (app_name_str argv0 (app_name (snd (main w argv0 fuel p)))) = false)
    /\ (occurs "/" argv0 = false ->
        app_name_str argv0 (app_name (snd (main w argv0 fuel p))) = argv0).
Proof.
  intros w argv0 fuel p.
  assert (Ha : app_name (snd (main w argv0 fuel p)) = Some (app_name_of argv0)
               /\ exists rest, calls (snd (main w argv0 fuel p))
                               = calls p ++ Openlog (tag_of argv0) 25 LOG_DAEMON :: rest).
  { destruct (main_viewP w argv0 fuel p).
    - split; [reflexivity |]. cbn. rewrite <- !app_assoc. eexists. reflexivity.
    - split; [reflexivity |]. cbn. rewrite <- !app_assoc. eexists. reflexivity.
    - unfold sessioned. destruct (setsid_ret w <? 0).
      all: split; [reflexivity |]; cbn; rewrite <- !app_assoc; eexists; reflexivity.
    - unfold detached, sessioned. destruct (setsid_ret w <? 0).
      all: split; [reflexivity |]; cbn; rewrite <- !app_assoc; eexists; reflexivity.
    - destruct (loop_then_grows w fuel (daemonized w argv0 p)) as [-> _ _ _ _ [l ->]].
      unfold daemonized, detached, sessioned. destruct (setsid_ret w <? 0).
      all: split; [reflexivity |]; cbn; rewrite <- !app_assoc; eexists; reflexivity. }
  destruct Ha as [-> Hcalls]. cbn [app_name_str]. fold (tag_of argv0).
  split; [exact Hcalls |]. unfold tag_of, app_name_of. split.
  - intros Ho. destruct (strrchr argv0 "/") as [q |] eqn:E.
    + apply strrchr_some. exact E.
    + apply strrchr_none in E. congruence.
  - intros Ho. rewrite (occurs_strrchr _ _ Ho). reflexivity.
Qed.

Lemma app_name_is_last_component_witness :
  occurs "/" "/usr/sbin/sampled" = true
  /\ occurs "/" "sampled" = false
  /\ (exists pre,
         "/usr/sbin/sampled"
         = String.append pre
             (String "/" (app_name_str "/usr/sbin/sampled"
                            (app_name (snd (main os_child "/usr/sbin/sampled" 2
                                              (fresh "/home" 18)))))))
  /\ app_name_str "sampled"
       (app_name (snd (main os_child "sampled" 2 (fresh "/home" 18)))) = "sampled".
Proof.
  assert (H1 : occurs "/" "/usr/sbin/sampled" = true) by reflexivity.
  assert (H2 : occurs "/" "sampled" = false) by reflexivity.
  destruct (app_name_is_last_component os_child "/usr/sbin/sampled" 2 (fresh "/home" 18))
    as (_ & Hlast & _).
  destruct (app_name_is_last_component os_child "sampled" 2 (fresh "/home" 18))
    as (_ & _ & Hwhole).
  split; [exact H1 |]. split; [exact H2 |]. split; [| exact (Hwhole H2)].
  destruct (Hlast H1) as (pre & Hpre & _). exists pre. exact Hpre.
Defined.

(** ** The loop *)

Lemma exits_ok_bind {A B : Type} (m : M A) (k : A -> M B) (p : proc) :
  exits_ok (fst (m p)) ->
  (forall a p', exits_ok (fst (k a p'))) ->
  exits_ok (fst (bind m k p)).
Proof.
  intros Hm Hk. unfold bind.
  destruct (m p) as [[a | s | s | ] p']; cbn [fst] in *; auto.
Qed.

Section LoopRuns.

Variable w : os.

Lemma handler_exits_ok signal p : exits_ok (fst (_signal_handler signal p)).
Proof.
  unfold _signal_handler.
  destruct (signal =? SIGHUP); [exact I |].
  destruct (signal =? SIGTERM); [reflexivity | exact I].
Qed.

Lemma deliver_exits_ok signum p : exits_ok (fst (deliver w signum p)).
Proof.
  unfold deliver. destruct (handlers p !! signum) as [[]|].
  - apply handler_exits_ok.
  - destruct (sig_dfl_fatal w signum); exact I.
Qed.

Lemma deliver_all_exits_ok signums p : exits_ok (fst (deliver_all w signums p)).
Proof.
  revert p. induction signums as [| s rest IH]; intros p; [exact I |].
  cbn [deliver_all]. apply exits_ok_bind; [apply deliver_exits_ok | intros _; exact IH].
Qed.

Lemma sleep_exits_ok seconds p : exits_ok (fst (sleep w seconds p)).
Proof.
  unfold sleep. apply exits_ok_bind; [apply deliver_all_exits_ok | intros; exact I].
Qed.

Lemma log_time_exits_ok fuel p : exits_ok (fst (_log_time w fuel p)).
Proof.
  revert p. induction fuel as [| fuel IH]; intros p; [exact I |].
  cbn [_log_time].
  apply exits_ok_bind; [exact I | intros rawtime p1].
  apply exits_ok_bind; [exact I | intros _ p2].
  apply exits_ok_bind; [apply sleep_exits_ok | intros _ p3]. apply IH.
Qed.

Lemma sleep_quiet seconds p :
  arrivals w (naps p) = [] ->
  sleep w seconds p = (Ret 0, set_naps (S (naps p)) (emit (Sleep seconds) p)).
Proof. intros H. unfold sleep. rewrite H. reflexivity. Qed.

(** Without a signal during its first [n] sleeps, the loop makes [n]
    iterations and is running. *)
Lemma log_time_iterates n :
  forall p,
    (forall i, (i < n)%nat -> arrivals w (naps p + i) = []) ->
    fst (_log_time w n p) = Running
    /\ calls (snd (_log_time w n p)) = calls p ++ iterations w (naps p) n
    /\ naps (snd (_log_time w n p)) = (naps p + n)%nat.
Proof.
  induction n as [| n IH]; intros p H.
  - cbn. rewrite app_nil_r, Nat.add_0_r. repeat split.
  - assert (H0 : arrivals w (naps p) = []).
    { rewrite <- (H O) by lia. f_equal. lia. }
    set (p3 := set_naps (S (naps p))
                 (emit (Sleep LOG_INTERVAL)
                    (emit (Syslog LOG_INFO
                             (format_s "Current system time is: %s"
                                (asctime w (localtime w (clock w (naps p))))))
                       (emit GetTime p)))).
    assert (E : _log_time w (S n) p = _log_time w n p3).
    { rewrite log_time_step. unfold bind.
      rewrite sleep_quiet by exact H0. reflexivity. }
    rewrite E.
    assert (Hn : naps p3 = S (naps p)) by reflexivity.
    destruct (IH p3) as (Hr & Hc & Hs).
    { intros i Hi. rewrite Hn. rewrite <- (H (S i)) by lia. f_equal. lia. }
    rewrite Hr, Hc, Hs, Hn. repeat split; [| lia].
    subst p3. cbn [calls set_naps emit iterations iteration].
    rewrite <- !app_assoc. reflexivity.
Qed.

End LoopRuns.

(** The daemon, once in the loop, is running, killed by a signal, or
    ended by [exit] with status [OK]. *)
Lemma loop_then_status w fuel p :
  exit_status (fst (bind (_log_time w fuel) (fun _ => ret ERR_WTF) p)) = None
  \/ exit_status (fst (bind (_log_time w fuel) (fun _ => ret ERR_WTF) p)) = Some OK.
Proof.
  pose proof (loop_then_never_returns w fuel p) as Hn.
  assert (Hx : exits_ok (fst (bind (_log_time w fuel) (fun _ => ret ERR_WTF) p))).
  { apply exits_ok_bind; [apply log_time_exits_ok | intros; exact I]. }
  destruct (fst _) as [s | s | s |]; cbn [exit_status exits_ok] in *.
  - exfalso. apply (Hn s). reflexivity.
  - right. rewrite Hx. reflexivity.
  - left. reflexivity.
  - left. reflexivity.
Qed.

(** With [setsid] returning what it can return, a session id or -1,
    [main] does not end with [ERR_SETSID]. *)
Lemma setsid_branch_unreachable w argv0 fuel p :
  setsid_contract w -> exit_status (fst (main w argv0 fuel p)) <> Some ERR_SETSID.
Proof.
  intros Hs. apply setsid_contract_ge in Hs.
  destruct (main_viewP w argv0 fuel p); try discriminate; [lia |].
  destruct (loop_then_status w fuel (daemonized w argv0 p)) as [-> | ->]; discriminate.
Qed.

(** C9.  [_log_time] does not return: however many iterations are
    observed and whatever signals arrive, it has not returned, so [main]
    does not end with [ERR_WTF]; and as long as no signal arrives, every
    iteration (read the time, log it at [LOG_INFO], sleep [LOG_INTERVAL])
    is followed by another one. *)
Theorem log_time_never_returns_to_main :
  forall (w : os) (argv0 : string) (fuel : nat) (p : proc),
    (forall u, fst (_log_time w fuel p) <> Ret u)
    /\ fst (main w argv0 fuel p) <> Ret ERR_WTF
    /\ exit_status (fst (main w argv0 fuel p)) <> Some ERR_WTF
    /\ fst (_log_time (quiet w) fuel p) = Running
    /\ calls (snd (_log_time (quiet w) fuel p)) = calls p ++ iterations w (naps p) fuel
    /\ calls (snd (_log_time (quiet w) (S fuel) p))
       = calls (snd (_log_time (quiet w) fuel p)) ++ iteration w (naps p + fuel)
    /\ naps (snd (_log_time (quiet w) fuel p)) = (naps p + fuel)%nat.
Proof.
  intros w argv0 fuel p.
  assert (Hst : exit_status (fst (main w argv0 fuel p)) <> Some ERR_WTF).
  { destruct (main_viewP w argv0 fuel p); try discriminate.
    destruct (loop_then_status w fuel (daemonized w argv0 p)) as [-> | ->]; discriminate. }
  assert (Hiter : forall n k, iterations (quiet w) k n = iterations w k n).
  { induction n as [| n IHn]; intros k; [reflexivity |].
    cbn [iterations]. rewrite IHn. reflexivity. }
  assert (Hsnoc : forall n k, iterations w k (S n) = iterations w k n ++ iteration w (k + n)).
  { induction n as [| n IHn]; intros k.
    - cbn [iterations]. rewrite Nat.add_0_r, app_nil_r. reflexivity.
    - change (iterations w k (S (S n))) with (iteration w k ++ iterations w (S k) (S n)).
      rewrite IHn. cbn [iterations]. rewrite <- app_assoc.
      replace (S k + n)%nat with (k + S n)%nat by lia. reflexivity. }
  destruct (log_time_iterates (quiet w) fuel p) as (Hr & Hc & Hs); [reflexivity |].
  destruct (log_time_iterates (quiet w) (S fuel) p) as (_ & Hc' & _); [reflexivity |].
  split; [intros u; apply log_time_never_returns |].
  split; [intros E; apply Hst; rewrite E; reflexivity |].
  split; [exact Hst |]. split; [exact Hr |].
  rewrite Hc', Hc, !Hiter, Hsnoc, app_assoc. repeat split. exact Hs.
Qed.

(** ** Which signals reach the handler *)

Lemma tame_same p q :
  handlers q = handlers p -> calls q = calls p -> tame p -> tame q.
Proof. intros Hh Hc [H1 H2]. split; [rewrite Hh; exact H1 | rewrite Hc; exact H2]. Qed.

Lemma tame_set_errno v p : tame p -> tame (set_errno v p).
Proof. apply tame_same; reflexivity. Qed.

Lemma tame_set_fmask v p : tame p -> tame (set_fmask v p).
Proof. apply tame_same; reflexivity. Qed.

Lemma tame_set_cwd v p : tame p -> tame (set_cwd v p).
Proof. apply tame_same; reflexivity. Qed.

Lemma tame_set_log_chan v p : tame p -> tame (set_log_chan v p).
Proof. apply tame_same; reflexivity. Qed.

Lemma tame_set_naps v p : tame p -> tame (set_naps v p).
Proof. apply tame_same; reflexivity. Qed.

Lemma tame_set_app_name v p : tame p -> tame (set_app_name v p).
Proof. apply tame_same; reflexivity. Qed.

Lemma tame_set_open_fds v p : tame p -> tame (set_open_fds v p).
Proof. apply tame_same; reflexivity. Qed.

Lemma tame_fresh dir m : tame (fresh dir m).
Proof.
  split; [| constructor].
  intros s h. cbn [handlers fresh]. rewrite lookup_empty. discriminate.
Qed.

Lemma starting_record_installed t : from_installed (Syslog LOG_INFO (format_s "Starting %s" t)).
Proof. cbn. discriminate. Qed.

Lemma error_record_installed e : from_installed (Syslog LOG_ERR (format_s ERROR_FORMAT e)).
Proof. cbn. discriminate. Qed.

Lemma time_record_installed t :
  from_installed (Syslog LOG_INFO (format_s "Current system time is: %s" t)).
Proof. cbn. discriminate. Qed.

Lemma tame_closed fd p : tame p -> tame (closed fd p).
Proof.
  intros Hp. unfold closed. apply tame_set_open_fds.
  apply tame_emit; [exact I | exact Hp].
Qed.

Lemma tame_installed signum h p :
  signum = SIGHUP \/ signum = SIGTERM -> tame p -> tame (installed signum h p).
Proof.
  intros Hs [Hh Hl]. split.
  - intros s h'. unfold installed. cbn [handlers set_handlers emit]. intros Hlook.
    destruct (decide (signum = s)) as [<- | Hne]; [exact Hs |].
    rewrite lookup_insert_ne in Hlook by exact Hne. eapply Hh. exact Hlook.
  - unfold installed. cbn [calls set_handlers emit].
    apply Forall_app. split; [exact Hl | constructor; [exact I | constructor]].
Qed.

Section Dispatch.

Variable w : os.

Lemma handler_keeps_tame signal :
  signal = SIGHUP \/ signal = SIGTERM -> keeps tame (_signal_handler signal).
Proof.
  intros Hs p Hp. unfold _signal_handler.
  destruct (signal =? SIGHUP) eqn:E1; [exact Hp |].
  destruct (signal =? SIGTERM) eqn:E2.
  - run. apply tame_emit; [exact I |]. apply tame_set_log_chan.
    apply tame_emit; [exact I |]. apply tame_emit; [| exact Hp]. cbn. discriminate.
  - exfalso. apply Z.eqb_neq in E1. apply Z.eqb_neq in E2. destruct Hs; contradiction.
Qed.

Lemma deliver_keeps_tame signum : keeps tame (deliver w signum).
Proof.
  intros p Hp. unfold deliver.
  destruct (handlers p !! signum) as [h |] eqn:E.
  - assert (Hs : signum = SIGHUP \/ signum = SIGTERM) by (destruct Hp as [Hh _]; eauto).
    destruct h. cbn [run_handler].
    apply handler_keeps_tame; [exact Hs |]. apply tame_emit; [exact Hs | exact Hp].
  - destruct (sig_dfl_fatal w signum); exact Hp.
Qed.

Lemma deliver_all_keeps_tame signums : keeps tame (deliver_all w signums).
Proof.
  induction signums as [| s rest IH]; [apply keeps_ret |].
  cbn [deliver_all]. apply keeps_bind; [apply deliver_keeps_tame | intros _; exact IH].
Qed.

Lemma sleep_keeps_tame seconds : keeps tame (sleep w seconds).
Proof.
  intros p Hp. unfold sleep.
  apply (keeps_bind tame); [apply deliver_all_keeps_tame | intros _; apply keeps_ret |].
  apply tame_set_naps. apply tame_emit; [exact I | exact Hp].
Qed.

Lemma log_time_keeps_tame fuel : keeps tame (_log_time w fuel).
Proof.
  induction fuel as [| fuel IH]; [intros p Hp; exact Hp |].
  cbn [_log_time].
  apply keeps_bind; [intros p Hp; apply tame_emit; [exact I | exact Hp] | intros rawtime].
  apply keeps_bind;
    [intros p Hp; apply tame_emit; [apply time_record_installed | exact Hp] | intros _].
  apply keeps_bind; [apply sleep_keeps_tame | intros _; exact IH].
Qed.

Lemma tame_logged argv0 p : tame p -> tame (logged argv0 p).
Proof.
  intros Hp. unfold logged.
  apply tame_emit; [apply starting_record_installed |].
  apply tame_set_log_chan. apply tame_emit; [exact I |].
  do 2 apply tame_set_app_name. exact Hp.
Qed.

Lemma tame_sessioned argv0 p : tame p -> tame (sessioned w argv0 p).
Proof.
  intros Hp.
  assert (H : tame (emit Setsid (emit Fork (logged argv0 p)))).
  { apply tame_emit; [exact I |]. apply tame_emit; [exact I |]. apply tame_logged, Hp. }
  unfold sessioned. destruct (setsid_ret w <? 0); [| exact H].
  apply tame_set_errno, H.
Qed.

Lemma tame_detached argv0 p : tame p -> tame (detached w argv0 p).
Proof.
  intros Hp. unfold detached. apply tame_set_fmask.
  apply tame_emit; [exact I |]. do 3 apply tame_closed. apply tame_sessioned, Hp.
Qed.

Lemma tame_daemonized argv0 p : tame p -> tame (daemonized w argv0 p).
Proof.
  intros Hp. unfold daemonized.
  apply tame_installed; [right; reflexivity |].
  apply tame_installed; [left; reflexivity |].
  apply tame_set_cwd.
  apply tame_emit; [exact I |]. apply tame_detached, Hp.
Qed.

Lemma main_keeps_tame argv0 fuel : keeps tame (main w argv0 fuel).
Proof.
  intros p Hp. destruct (main_viewP w argv0 fuel p); cbn [snd].
  - apply tame_emit; [apply error_record_installed |]. apply tame_set_errno.
    apply tame_emit; [exact I |]. apply tame_logged, Hp.
  - apply tame_emit; [apply error_record_installed |]. apply tame_set_errno.
    do 2 (apply tame_emit; [exact I |]). apply tame_logged, Hp.
  - apply tame_sessioned, Hp.
  - apply tame_emit; [apply error_record_installed |]. apply tame_set_errno.
    apply tame_emit; [exact I |]. apply tame_detached, Hp.
  - apply (keeps_bind tame); [apply log_time_keeps_tame | intros _; apply keeps_ret |].
    apply tame_daemonized, Hp.
Qed.

End Dispatch.

(** C10.  In a run of [main], whatever signals arrive and however long
    the run is observed, a handler is installed for [SIGHUP] and [SIGTERM]
    only, the handler is entered for these two signals only, and the
    record of its default branch is never written. *)
Theorem default_branch_never_taken :
  forall (w : os) (argv0 : string) (fuel : nat) (dir : string) (m : Z),
    (forall s h,
        handlers (snd (main w argv0 fuel (fresh dir m))) !! s = Some h ->
        s = SIGHUP \/ s = SIGTERM)
    /\ (forall s,
           In (Caught s) (calls (snd (main w argv0 fuel (fresh dir m)))) ->
           s = SIGHUP \/ s = SIGTERM)
    /\ (forall priority,
           ~ In (Syslog priority "received unhandled signal.")
               (calls (snd (main w argv0 fuel (fresh dir m)))))
    /\ (forall s p,
           s <> SIGHUP -> s <> SIGTERM ->
           calls (snd (_signal_handler s p))
           = calls p ++ [Syslog LOG_INFO "received unhandled signal."]).
Proof.
  intros w argv0 fuel dir m.
  destruct (main_keeps_tame w argv0 fuel (fresh dir m) (tame_fresh dir m)) as [Hh Hl].
  rewrite Forall_forall in Hl.
  split; [exact Hh |]. split; [| split].
  - intros s Hin. apply list_elem_of_In in Hin. exact (Hl _ Hin).
  - intros priority Hin. apply list_elem_of_In in Hin.
    apply (Hl _ Hin). reflexivity.
  - intros s p H1 H2. unfold _signal_handler.
    apply Z.eqb_neq in H1. apply Z.eqb_neq in H2. rewrite H1, H2. reflexivity.
Qed.

(** * Further properties of the code *)

(** ** The log tag *)

Lemma append_cons a s t : String.append (String a s) t = String a (String.append s t).
Proof. reflexivity. Qed.

Lemma strrchr_append pre c t :
  occurs c t = false ->
  strrchr (String.append pre (String c t)) c = Some (String.length pre).
Proof.
  intros Ht. induction pre as [| a pre IH].
  - change (String.append EmptyString (String c t)) with (String c t).
    cbn [strrchr String.length]. rewrite (occurs_strrchr _ _ Ht), Ascii.eqb_refl. reflexivity.
  - rewrite append_cons. cbn [strrchr String.length]. rewrite IH. reflexivity.
Qed.

Lemma c_str_append pre c t :
  c_str (String.append pre (String c t)) (S (String.length pre)) = t.
Proof.
  induction pre as [| a pre IH]; [reflexivity |].
  rewrite append_cons. cbn [String.length c_str]. exact IH.
Qed.

Lemma c_str_suffix s n : exists pre, s = String.append pre (c_str s n).
Proof.
  revert s. induction n as [| n IH]; intros s.
  - exists EmptyString. reflexivity.
  - destruct s as [| a s]; [exists EmptyString; reflexivity |].
    destruct (IH s) as [pre Hpre]. exists (String a pre).
    rewrite append_cons. cbn [c_str]. f_equal. exact Hpre.
Qed.

Lemma tag_of_no_separator argv0 : occurs "/" (tag_of argv0) = false.
Proof.
  unfold tag_of, app_name_of. destruct (strrchr argv0 "/") as [q |] eqn:E.
  - destruct (strrchr_some _ _ _ E) as (pre & _ & Ho). exact Ho.
  - apply strrchr_none. exact E.
Qed.

(** What [main] leaves in [app_name], however it ends. *)
Lemma main_app_name w argv0 fuel p :
  app_name (snd (main w argv0 fuel p)) = Some (app_name_of argv0).
Proof.
  destruct (main_viewP w argv0 fuel p).
  - reflexivity.
  - reflexivity.
  - unfold sessioned. destruct (setsid_ret w <? 0); reflexivity.
  - unfold detached, sessioned. destruct (setsid_ret w <? 0); reflexivity.
  - destruct (loop_then_grows w fuel (daemonized w argv0 p)) as [-> _ _ _ _ _].
    unfold daemonized, detached, sessioned. destruct (setsid_ret w <? 0); reflexivity.
Qed.

(** X1.  Started as [pre/t] with no '/' in [t], the program takes [t]
    as its tag, whatever [pre] is: directories, dots, other '/'. *)
Theorem tag_of_a_path :
  forall (w : os) (pre t : string) (fuel : nat) (p : proc),
    occurs "/" t = false ->
    app_name_str (String.append pre (String "/" t))
      (app_name (snd (main w (String.append pre (String "/" t)) fuel p))) = t.
Proof.
  intros w pre t fuel p Ht. rewrite main_app_name.
  cbn [app_name_str]. unfold app_name_of.
  rewrite (strrchr_append pre "/" t Ht). apply c_str_append.
Qed.

Lemma tag_of_a_path_witness :
  occurs "/" "sampled" = false
  /\ app_name_str "/usr/local/../sbin/sampled"
       (app_name (snd (main os_child "/usr/local/../sbin/sampled" 1 (fresh "/" 18))))
     = "sampled".
Proof.
  assert (H : occurs "/" "sampled" = false) by reflexivity.
  split; [exact H |].
  exact (tag_of_a_path os_child "/usr/local/../sbin" "sampled" 1 (fresh "/" 18) H).
Defined.

(** X2.  The tag never has a '/' in it, it is the end of [argv0], and
    it is its own tag: started under its tag the program keeps it.  An
    [argv0] that ends with '/' gives the empty tag. *)
Theorem tag_is_a_bare_name :
  forall (w : os) (argv0 : string) (fuel : nat) (p : proc),
    app_name_str argv0 (app_name (snd (main w argv0 fuel p))) = tag_of argv0
    /\ occurs "/" (tag_of argv0) = false
    /\ (exists pre, argv0 = String.append pre (tag_of argv0))
    /\ app_name_str (tag_of argv0) (app_name (snd (main w (tag_of argv0) fuel p)))
       = tag_of argv0
    /\ app_name_str (String.append argv0 "/")
         (app_name (snd (main w (String.append argv0 "/") fuel p))) = EmptyString.
Proof.
  intros w argv0 fuel p. rewrite !main_app_name. cbn [app_name_str].
  split; [reflexivity |]. split; [apply tag_of_no_separator |].
  split; [apply c_str_suffix |]. split.
  - unfold app_name_of at 1.
    rewrite (occurs_strrchr _ _ (tag_of_no_separator argv0)). reflexivity.
  - unfold app_name_of.
    rewrite (strrchr_append argv0 "/" EmptyString eq_refl). apply c_str_append.
Qed.

(** ** The daemon *)

(** X3.  In the child, with [setsid] not below -1 and [chdir]
    succeeding, the process is a daemon for as long as it is observed: its
    directory is the root, the three standard descriptors are closed and
    no other descriptor is, and the handler is installed for [SIGHUP]
    and [SIGTERM] over the inherited dispositions. *)
Theorem daemon_state :
  forall (w : os) (argv0 : string) (fuel : nat) (p : proc),
    fork_ret w = 0 -> -1 <= setsid_ret w -> chdir_ret w = 0 ->
    cwd (snd (main w argv0 fuel p)) = "/"
    /\ (forall fd,
           fd ∈ open_fds (snd (main w argv0 fuel p))
           <-> fd ∈ open_fds p
               /\ fd <> STDIN_FILENO /\ fd <> STDOUT_FILENO /\ fd <> STDERR_FILENO)
    /\ handlers (snd (main w argv0 fuel p))
       = <[ SIGTERM := Fn_signal_handler ]> (<[ SIGHUP := Fn_signal_handler ]> (handlers p)).
Proof.
  intros w argv0 fuel p Hf Hs Hc.
  rewrite (main_daemon w argv0 p fuel Hf Hs Hc).
  destruct (loop_then_grows w fuel (daemonized w argv0 p)) as [_ -> _ -> -> _].
  assert (Hfds : open_fds (daemonized w argv0 p)
                 = open_fds p ∖ {[ STDIN_FILENO ]} ∖ {[ STDOUT_FILENO ]} ∖ {[ STDERR_FILENO ]}).
  { unfold daemonized, detached, sessioned. destruct (setsid_ret w <? 0); reflexivity. }
  assert (Hh : handlers (daemonized w argv0 p)
               = <[ SIGTERM := Fn_signal_handler ]>
                   (<[ SIGHUP := Fn_signal_handler ]> (handlers p))).
  { unfold daemonized, detached, sessioned. destruct (setsid_ret w <? 0); reflexivity. }
  split; [reflexivity |]. split; [| exact Hh].
  intros fd. rewrite Hfds, !elem_of_difference, !elem_of_singleton. tauto.
Qed.

Lemma daemon_state_witness :
  fork_ret os_child = 0
  /\ -1 <= setsid_ret os_child
  /\ chdir_ret os_child = 0
  /\ cwd (snd (main os_child "./sampled" 4 (fresh "/home" 18))) = "/"
  /\ (3 ∈ open_fds (snd (main os_child "./sampled" 4
                            (set_open_fds {[ 0; 1; 2; 3 ]} (fresh "/home" 18))))).
Proof.
  assert (Hf : fork_ret os_child = 0) by reflexivity.
  assert (Hs : -1 <= setsid_ret os_child) by discriminate.
  assert (Hc : chdir_ret os_child = 0) by reflexivity.
  destruct (daemon_state os_child "./sampled" 4 (fresh "/home" 18) Hf Hs Hc) as (Hcwd & _).
  destruct (daemon_state os_child "./sampled" 4
              (set_open_fds {[ 0; 1; 2; 3 ]} (fresh "/home" 18)) Hf Hs Hc)
    as (_ & Hfds & _).
  do 3 (split; [assumption |]). split; [exact Hcwd |].
  apply Hfds. cbn [open_fds set_open_fds].
  split; [| split; [discriminate | split; discriminate]].
  apply elem_of_union. right. apply elem_of_singleton. reflexivity.
Defined.

Lemma daemon_calls_extend w argv0 fuel p :
  exists l,
    calls (snd (bind (_log_time w fuel) (fun _ => ret ERR_WTF) (daemonized w argv0 p)))
    = calls (daemonized w argv0 p) ++ l.
Proof. destruct (loop_then_grows w fuel (daemonized w argv0 p)) as [_ _ _ _ _ H]. exact H. Qed.

(** ** Exit statuses *)

(** X4.  The exit status tells the cause: 3 exactly when [fork]
    failed, 4 exactly when the test on [setsid] fired, 5 exactly when
    [chdir] failed in the child; and a process that ended by itself ended
    with 0, 3, 4 or 5. *)
Theorem exit_status_tells_the_cause :
  forall (w : os) (argv0 : string) (fuel : nat) (p : proc),
    (exit_status (fst (main w argv0 fuel p)) = Some ERR_FORK <-> fork_ret w < 0)
    /\ (exit_status (fst (main w argv0 fuel p)) = Some ERR_SETSID
        <-> 0 <= fork_ret w /\ setsid_ret w < -1)
    /\ (exit_status (fst (main w argv0 fuel p)) = Some ERR_CHDIR
        <-> fork_ret w = 0 /\ -1 <= setsid_ret w /\ chdir_ret w <> 0)
    /\ (forall s,
           exit_status (fst (main w argv0 fuel p)) = Some s ->
           s = OK \/ s = ERR_FORK \/ s = ERR_SETSID \/ s = ERR_CHDIR).
Proof.
  intros w argv0 fuel p.
  destruct (main_viewP w argv0 fuel p); cbn [fst exit_status].
  - repeat split; intros; try discriminate; try lia; try tauto.
    right. left. congruence.
  - repeat split; intros; try discriminate; try lia; try tauto.
    right. right. left. congruence.
  - repeat split; intros; try discriminate; try lia; try tauto.
    left. congruence.
  - repeat split; intros; try discriminate; try lia; try tauto.
    right. right. right. congruence.
  - destruct (loop_then_status w fuel (daemonized w argv0 p)) as [-> | ->].
    + repeat split; intros; try discriminate; try lia; tauto.
    + repeat split; intros; try discriminate; try lia; try tauto.
      left. congruence.
Qed.

(** X5.  [setsid] is called exactly when [fork] did not fail: in the
    child, and in the parent too, before it exits. *)
Theorem setsid_runs_in_parent_and_child :
  forall (w : os) (argv0 : string) (fuel : nat) (dir : string) (m : Z),
    In Setsid (calls (snd (main w argv0 fuel (fresh dir m)))) <-> 0 <= fork_ret w.
Proof.
  intros w argv0 fuel dir m.
  destruct (main_viewP w argv0 fuel (fresh dir m)).
  - split; [| lia]. cbn. intuition discriminate.
  - split; [lia |]. intros _. cbn. tauto.
  - split; [lia |]. intros _.
    unfold sessioned. destruct (setsid_ret w <? 0); cbn; tauto.
  - split; [lia |]. intros _.
    unfold detached, sessioned. destruct (setsid_ret w <? 0); cbn; tauto.
  - split; [lia |]. intros _.
    destruct (daemon_calls_extend w argv0 fuel (fresh dir m)) as [l ->].
    apply in_or_app. left.
    unfold daemonized, detached, sessioned. destruct (setsid_ret w <? 0); cbn; tauto.
Qed.

(** ** Rules for outcome-dependent specifications *)

Lemma triple_bind {A B : Type} (P : proc -> Prop) (m : M A) (R : A -> proc -> Prop)
    (k : A -> M B) (R' : B -> proc -> Prop) (E : outcome unit -> proc -> Prop) :
  triple P m R E -> (forall a, triple (R a) (k a) R' E) -> triple P (bind m k) R' E.
Proof.
  intros Hm Hk p Hp. specialize (Hm p Hp). unfold bind.
  destruct (m p) as [[a | s | s | ] p']; cbn [fst snd forget] in *; try exact Hm.
  apply Hk. exact Hm.
Qed.

Lemma triple_ret {A : Type} (a : A) (R : A -> proc -> Prop)
    (E : outcome unit -> proc -> Prop) :
  triple (R a) (ret a) R E.
Proof. intros p Hp. exact Hp. Qed.

(** The loop keeps what its own three calls and every delivery keep. *)
Lemma log_time_triple (w : os) (P : proc -> Prop) (E : outcome unit -> proc -> Prop) :
  (forall q, P q -> P (emit GetTime q)) ->
  (forall t q, P q -> P (emit (Syslog LOG_INFO (format_s "Current system time is: %s" t)) q)) ->
  (forall q, P q -> P (set_naps (S (naps q)) (emit (Sleep LOG_INTERVAL) q))) ->
  (forall s, triple P (deliver w s) (fun _ => P) E) ->
  (forall q, P q -> E Running q) ->
  forall fuel, triple P (_log_time w fuel) (fun _ => P) E.
Proof.
  intros Htime Hlog Hsleep Hdel Hrun fuel.
  induction fuel as [| fuel IH]; [intros p Hp; apply Hrun, Hp |].
  cbn [_log_time].
  apply (triple_bind P _ (fun _ => P)); [intros p Hp; apply Htime, Hp | intros rawtime].
  apply (triple_bind P _ (fun _ => P)); [intros p Hp; apply Hlog, Hp | intros _].
  apply (triple_bind P _ (fun _ => P)); [| intros _; exact IH].
  intros p Hp. unfold sleep.
  apply (triple_bind P (deliver_all w (arrivals w (naps p))) (fun _ => P));
    [| intros _; apply (triple_ret 0 (fun _ => P)) | apply Hsleep, Hp].
  generalize (arrivals w (naps p)). intros sigs.
  induction sigs as [| s sigs IHs]; [apply (triple_ret tt (fun _ => P)) |].
  cbn [deliver_all]. apply (triple_bind P _ (fun _ => P)); [apply Hdel | intros _; exact IHs].
Qed.

(** ** The orderly shutdown *)

Lemma open_run_emit base c q :
  c <> Closelog -> c <> Exit OK -> open_run base q -> open_run base (emit c q).
Proof.
  intros Hc He (l & Hl & Hn & Hx). exists (l ++ [c]). cbn [calls emit].
  rewrite Hl, <- app_assoc. split; [reflexivity |].
  split; intros Hin; apply in_app_or in Hin as [Hin | [Hin | []]]; auto.
Qed.

Lemma open_run_same base q q' : calls q' = calls q -> open_run base q -> open_run base q'.
Proof. intros Hc (l & Hl & Hn). exists l. rewrite Hc. auto. Qed.

Lemma deliver_shutdown w base s :
  triple (open_run base) (deliver w s) (fun _ => open_run base) (ends_by_shutdown base).
Proof.
  intros p Hp. unfold deliver.
  destruct (handlers p !! s) as [[] |].
  - cbn [run_handler]. unfold _signal_handler.
    destruct (s =? SIGHUP) eqn:E1.
    + cbn [ret fst snd]. apply open_run_emit; [discriminate | discriminate | exact Hp].
    + destruct (s =? SIGTERM) eqn:E2.
      * apply Z.eqb_eq in E2. subst s. run. cbn [forget ends_by_shutdown].
        split; [reflexivity |]. destruct Hp as (l & Hl & Hn & Hx).
        exists l. unfold shutdown. run. rewrite Hl, <- !app_assoc.
        repeat split; assumption.
      * run. apply open_run_emit; [discriminate | discriminate |].
        apply open_run_emit; [discriminate | discriminate | exact Hp].
  - destruct (sig_dfl_fatal w s); exact Hp.
Qed.

Lemma log_time_shutdown w base fuel :
  triple (open_run base) (_log_time w fuel) (fun _ => open_run base) (ends_by_shutdown base).
Proof.
  apply log_time_triple.
  - intros q Hq. apply open_run_emit; [discriminate | discriminate | exact Hq].
  - intros t q Hq. apply open_run_emit; [discriminate | discriminate | exact Hq].
  - intros q Hq. apply (open_run_same base (emit (Sleep LOG_INTERVAL) q)); [reflexivity |].
    apply open_run_emit; [discriminate | discriminate | exact Hq].
  - intros s. apply deliver_shutdown.
  - intros q Hq. exact Hq.
Qed.

(** The daemon, however far it is observed: it has not closed its log
    and has not exited, or it has just shut down in order. *)
Lemma daemon_shutdown w fuel p :
  match fst (bind (_log_time w fuel) (fun _ => ret ERR_WTF) p) with
  | Exited s =>
      s = OK
      /\ shut_run (calls p) (snd (bind (_log_time w fuel) (fun _ => ret ERR_WTF) p))
  | _ => open_run (calls p) (snd (bind (_log_time w fuel) (fun _ => ret ERR_WTF) p))
  end.
Proof.
  assert (T : triple (open_run (calls p))
                (bind (_log_time w fuel) (fun _ => ret ERR_WTF))
                (fun _ => open_run (calls p)) (ends_by_shutdown (calls p))).
  { apply (triple_bind _ _ (fun _ => open_run (calls p))); [apply log_time_shutdown |].
    intros _. apply (triple_ret ERR_WTF (fun _ => open_run (calls p))). }
  assert (H0 : open_run (calls p) p).
  { exists []. rewrite app_nil_r. repeat split; intros []. }
  specialize (T p H0).
  destruct (fst _) as [a | s | s |]; exact T.
Qed.

(** X6.  The process calls [exit] in one way only: a process ended by
    [exit] is the child, it had the handler entered for [SIGTERM], wrote
    the shutdown record, closed its log and exited with [OK]; these are
    its last four calls, and before them the log was never closed. *)
Theorem exit_is_the_orderly_shutdown :
  forall (w : os) (argv0 : string) (fuel : nat) (p : proc) (s : Z),
    fst (main w argv0 fuel p) = Exited s ->
    s = OK
    /\ fork_ret w = 0
    /\ log_chan (snd (main w argv0 fuel p)) = None
    /\ exists l,
         calls (snd (main w argv0 fuel p))
         = calls (daemonized w argv0 p) ++ l
           ++ [Caught SIGTERM; Syslog LOG_INFO "received SIGTERM - exiting.";
               Closelog; Exit OK]
         /\ ~ In Closelog l.
Proof.
  intros w argv0 fuel p s H.
  destruct (main_viewP w argv0 fuel p); try discriminate.
  pose proof (daemon_shutdown w fuel (daemonized w argv0 p)) as T.
  rewrite H in T. destruct T as (-> & l & Hl & Hn & _ & Hchan).
  split; [reflexivity |]. split; [assumption |]. split; [exact Hchan |].
  exists l. split; [exact Hl | exact Hn].
Qed.

Lemma exit_is_the_orderly_shutdown_witness :
  fst (main (sample_os 0 4242 0 (sigterm_at 1)) "./sampled" 5 (fresh "/home" 18)) = Exited 0
  /\ log_chan (snd (main (sample_os 0 4242 0 (sigterm_at 1)) "./sampled" 5 (fresh "/home" 18)))
     = None.
Proof.
  assert (H : fst (main (sample_os 0 4242 0 (sigterm_at 1)) "./sampled" 5 (fresh "/home" 18))
              = Exited 0) by (vm_compute; reflexivity).
  split; [exact H |].
  exact (proj1 (proj2 (proj2
    (exit_is_the_orderly_shutdown (sample_os 0 4242 0 (sigterm_at 1)) "./sampled" 5
       (fresh "/home" 18) 0 H)))).
Defined.

Lemma split_at_unique {A : Type} (x : A) (l1' l2' : list A) :
  ~ In x l1' -> ~ In x l2' ->
  forall l1 l2, l1 ++ x :: l2 = l1' ++ x :: l2' -> l1 = l1' /\ l2 = l2'.
Proof.
  intros H1 H2. induction l1' as [| a t IH]; intros l1 l2 E.
  - destruct l1 as [| y l1]; cbn in E.
    + injection E as E. split; [reflexivity | exact E].
    + injection E as -> E. exfalso. apply H2. rewrite <- E. apply in_elt.
  - destruct l1 as [| y l1]; cbn in E.
    + injection E as -> E. exfalso. apply H1. left. reflexivity.
    + injection E as -> E. destruct (IH (fun H => H1 (or_intror H)) l1 l2 E) as [-> ->].
      split; reflexivity.
Qed.

(** Every run from a fresh process: the log was never closed and
    [exit] never called, or the run ends with the shutdown. *)
Lemma main_open_or_shut w argv0 fuel dir m :
  match fst (main w argv0 fuel (fresh dir m)) with
  | Exited s => s = OK /\ shut_run [] (snd (main w argv0 fuel (fresh dir m)))
  | _ => open_run [] (snd (main w argv0 fuel (fresh dir m)))
  end.
Proof.
  destruct (main_viewP w argv0 fuel (fresh dir m)); cbn [fst snd].
  - eexists. split; [reflexivity |]. cbn. intuition discriminate.
  - eexists. split; [reflexivity |]. cbn. intuition discriminate.
  - eexists. split; [reflexivity |].
    unfold sessioned. destruct (setsid_ret w <? 0); cbn; intuition discriminate.
  - eexists. split; [reflexivity |].
    unfold detached, sessioned. destruct (setsid_ret w <? 0); cbn; intuition discriminate.
  - assert (Hb : ~ In Closelog (calls (daemonized w argv0 (fresh dir m)))
                 /\ ~ In (Exit OK) (calls (daemonized w argv0 (fresh dir m)))).
    { unfold daemonized, detached, sessioned.
      destruct (setsid_ret w <? 0); cbn; intuition discriminate. }
    destruct Hb as [Hb1 Hb2].
    pose proof (daemon_shutdown w fuel (daemonized w argv0 (fresh dir m))) as T.
    destruct (fst _) as [a | s | s |].
    + destruct T as (l & Hl & Hn & Hx). exists (calls (daemonized w argv0 (fresh dir m)) ++ l).
      split; [exact Hl |].
      split; intros Hin; apply in_app_or in Hin as [Hin | Hin]; auto.
    + destruct T as (Hs & l & Hl & Hn & Hx & Hchan). split; [exact Hs |].
      exists (calls (daemonized w argv0 (fresh dir m)) ++ l).
      split; [rewrite Hl; apply app_assoc |].
      split; [| split; [| exact Hchan]];
        intros Hin; apply in_app_or in Hin as [Hin | Hin]; auto.
    + destruct T as (l & Hl & Hn & Hx). exists (calls (daemonized w argv0 (fresh dir m)) ++ l).
      split; [exact Hl |].
      split; intros Hin; apply in_app_or in Hin as [Hin | Hin]; auto.
    + destruct T as (l & Hl & Hn & Hx). exists (calls (daemonized w argv0 (fresh dir m)) ++ l).
      split; [exact Hl |].
      split; intros Hin; apply in_app_or in Hin as [Hin | Hin]; auto.
Qed.

(** X7.  After [closelog] the process makes one call, [exit(OK)]: it
    never writes a record to a closed log, never reopens it, and closes it
    at most once. *)
Theorem nothing_follows_closelog_but_exit :
  forall (w : os) (argv0 : string) (fuel : nat) (dir : string) (m : Z)
         (before after : list call),
    calls (snd (main w argv0 fuel (fresh dir m))) = before ++ Closelog :: after ->
    after = [Exit OK]
    /\ ~ In Closelog before
    /\ fst (main w argv0 fuel (fresh dir m)) = Exited OK.
Proof.
  intros w argv0 fuel dir m before after H.
  pose proof (main_open_or_shut w argv0 fuel dir m) as T.
  assert (Hin : In Closelog (calls (snd (main w argv0 fuel (fresh dir m)))))
    by (rewrite H; apply in_elt).
  destruct (fst (main w argv0 fuel (fresh dir m))) as [a | s | s |].
  - exfalso. destruct T as (l & Hl & Hn & _). rewrite Hl in Hin. exact (Hn Hin).
  - destruct T as (-> & l & Hl & Hn & _ & _).
    rewrite Hl in H. cbn [app] in H. unfold shutdown in H.
    change (l ++ [Caught SIGTERM; Syslog LOG_INFO "received SIGTERM - exiting.";
                  Closelog; Exit OK])
      with (l ++ [Caught SIGTERM; Syslog LOG_INFO "received SIGTERM - exiting."]
              ++ Closelog :: [Exit OK]) in H.
    rewrite app_assoc in H. symmetry in H.
    apply split_at_unique in H as [-> ->].
    + split; [reflexivity |]. split; [| reflexivity].
      intros Hb. apply in_app_or in Hb as [Hb | Hb]; [exact (Hn Hb) |].
      cbn in Hb. intuition discriminate.
    + intros Hb. apply in_app_or in Hb as [Hb | Hb]; [exact (Hn Hb) |].
      cbn in Hb. intuition discriminate.
    + cbn. intuition discriminate.
  - exfalso. destruct T as (l & Hl & Hn & _). rewrite Hl in Hin. exact (Hn Hin).
  - exfalso. destruct T as (l & Hl & Hn & _). rewrite Hl in Hin. exact (Hn Hin).
Qed.

Lemma nothing_follows_closelog_but_exit_witness :
  calls (snd (main (sample_os 0 4242 0 (sigterm_at 0)) "sampled" 3 (fresh "/" 18)))
  = [Openlog "sampled" 25 24; Syslog 6 "Starting sampled"; Fork; Setsid;
     Close 0; Close 1; Close 2; Umask 420; Chdir "/";
     Signal 1 Fn_signal_handler; Signal 15 Fn_signal_handler;
     GetTime; Syslog 6 "Current system time is: Wed Jun 30 21:49:08 2021"; Sleep 1;
     Caught 15; Syslog 6 "received SIGTERM - exiting."]
    ++ Closelog :: [Exit 0]
  /\ fst (main (sample_os 0 4242 0 (sigterm_at 0)) "sampled" 3 (fresh "/" 18)) = Exited OK.
Proof.
  assert (H : calls (snd (main (sample_os 0 4242 0 (sigterm_at 0)) "sampled" 3 (fresh "/" 18)))
              = [Openlog "sampled" 25 24; Syslog 6 "Starting sampled"; Fork; Setsid;
                 Close 0; Close 1; Close 2; Umask 420; Chdir "/";
                 Signal 1 Fn_signal_handler; Signal 15 Fn_signal_handler;
                 GetTime; Syslog 6 "Current system time is: Wed Jun 30 21:49:08 2021";
                 Sleep 1; Caught 15; Syslog 6 "received SIGTERM - exiting."]
                ++ Closelog :: [Exit 0]) by (vm_compute; reflexivity).
  split; [exact H |].
  exact (proj2 (proj2 (nothing_follows_closelog_but_exit _ _ _ _ _ _ _ H))).
Defined.

(** ** Signals during the loop *)

Lemma sleep_sigterm w seconds p rest :
  handlers p !! SIGTERM = Some Fn_signal_handler ->
  arrivals w (naps p) = SIGTERM :: rest ->
  sleep w seconds p
  = (Exited OK,
     emit (Exit OK)
       (set_log_chan None
          (emit Closelog
             (emit (Syslog LOG_INFO "received SIGTERM - exiting.")
                (emit (Caught SIGTERM)
                   (set_naps (S (naps p)) (emit (Sleep seconds) p))))))).
Proof.
  intros Hh Ha. unfold sleep. rewrite Ha. cbn [deliver_all].
  unfold bind, deliver. cbn [handlers set_naps emit]. rewrite Hh. reflexivity.
Qed.

Lemma log_time_sigterm w k :
  forall p rest fuel,
    handlers p !! SIGTERM = Some Fn_signal_handler ->
    (forall i, (i < k)%nat -> arrivals w (naps p + i) = []) ->
    arrivals w (naps p + k) = SIGTERM :: rest ->
    (k < fuel)%nat ->
    fst (_log_time w fuel p) = Exited OK
    /\ calls (snd (_log_time w fuel p)) = calls p ++ iterations w (naps p) (S k) ++ shutdown
    /\ log_chan (snd (_log_time w fuel p)) = None.
Proof.
  induction k as [| k IH]; intros p rest fuel Hh Hq Ha Hk;
    (destruct fuel as [| fuel]; [lia |]); rewrite log_time_step; unfold bind.
  - rewrite Nat.add_0_r in Ha. rewrite (sleep_sigterm w _ _ rest) by assumption.
    cbn [fst snd calls emit set_log_chan set_naps log_chan iterations iteration shutdown].
    repeat split. rewrite <- !app_assoc. reflexivity.
  - assert (H0 : arrivals w (naps p) = []).
    { rewrite <- (Hq O) by lia. f_equal. lia. }
    rewrite sleep_quiet by exact H0.
    set (p3 := set_naps _ _).
    assert (Hn : naps p3 = S (naps p)) by reflexivity.
    destruct (IH p3 rest fuel) as (Hr & Hc & Hl).
    + exact Hh.
    + intros i Hi. rewrite Hn. rewrite <- (Hq (S i)) by lia. f_equal. lia.
    + rewrite Hn. rewrite <- Ha. f_equal. lia.
    + lia.
    + rewrite Hr, Hc, Hl, Hn. repeat split.
      subst p3. cbn [calls set_naps emit]. cbn [iterations iteration].
      rewrite <- !app_assoc. reflexivity.
Qed.

(** X8.  A [SIGTERM] that arrives during the sleep of iteration [k] of
    the daemon, none having arrived before, ends it there: [k + 1] times
    were logged, then the shutdown record; the log is closed and the exit
    status is 0.  Signals that arrive with it, after it, are not seen. *)
Theorem sigterm_ends_the_daemon :
  forall (w : os) (argv0 : string) (fuel : nat) (dir : string) (m : Z)
         (k : nat) (rest : list Z),
    fork_ret w = 0 -> -1 <= setsid_ret w -> chdir_ret w = 0 ->
    (forall i, (i < k)%nat -> arrivals w i = []) ->
    arrivals w k = SIGTERM :: rest ->
    (k < fuel)%nat ->
    fst (main w argv0 fuel (fresh dir m)) = Exited OK
    /\ exit_status (fst (main w argv0 fuel (fresh dir m))) = Some 0
    /\ calls (snd (main w argv0 fuel (fresh dir m)))
       = calls (daemonized w argv0 (fresh dir m)) ++ iterations w O (S k)
         ++ [Caught SIGTERM; Syslog LOG_INFO "received SIGTERM - exiting.";
             Closelog; Exit OK]
    /\ log_chan (snd (main w argv0 fuel (fresh dir m))) = None.
Proof.
  intros w argv0 fuel dir m k rest Hf Hs Hc Hq Ha Hk.
  rewrite (main_daemon w argv0 (fresh dir m) fuel Hf Hs Hc).
  assert (Hn : naps (daemonized w argv0 (fresh dir m)) = O).
  { unfold daemonized, detached, sessioned. destruct (setsid_ret w <? 0); reflexivity. }
  assert (Hh : handlers (daemonized w argv0 (fresh dir m)) !! SIGTERM
               = Some Fn_signal_handler).
  { unfold daemonized, installed. cbn [handlers set_handlers]. apply lookup_insert_eq. }
  destruct (log_time_sigterm w k (daemonized w argv0 (fresh dir m)) rest fuel)
    as (Hr & Hcalls & Hl); [exact Hh | rewrite Hn; exact Hq | rewrite Hn; exact Ha | exact Hk |].
  rewrite Hn in Hcalls. unfold bind.
  destruct (_log_time w fuel (daemonized w argv0 (fresh dir m))) as [o q].
  cbn [fst snd] in *. subst o. cbn [fst snd exit_status]. repeat split; assumption.
Qed.

Lemma sigterm_ends_the_daemon_witness :
  fork_ret (sample_os 0 4242 0 (sigterm_at 2)) = 0
  /\ -1 <= setsid_ret (sample_os 0 4242 0 (sigterm_at 2))
  /\ chdir_ret (sample_os 0 4242 0 (sigterm_at 2)) = 0
  /\ arrivals (sample_os 0 4242 0 (sigterm_at 2)) 2 = [SIGTERM]
  /\ (2 < 9)%nat
  /\ fst (main (sample_os 0 4242 0 (sigterm_at 2)) "./sampled" 9 (fresh "/home" 18))
     = Exited OK.
Proof.
  assert (Hf : fork_ret (sample_os 0 4242 0 (sigterm_at 2)) = 0) by reflexivity.
  assert (Hs : -1 <= setsid_ret (sample_os 0 4242 0 (sigterm_at 2))) by discriminate.
  assert (Hc : chdir_ret (sample_os 0 4242 0 (sigterm_at 2)) = 0) by reflexivity.
  assert (Hq : forall i, (i < 2)%nat -> arrivals (sample_os 0 4242 0 (sigterm_at 2)) i = []).
  { intros i Hi. destruct i as [| [| i]]; [reflexivity | reflexivity | lia]. }
  assert (Ha : arrivals (sample_os 0 4242 0 (sigterm_at 2)) 2 = SIGTERM :: []) by reflexivity.
  assert (Hk : (2 < 9)%nat) by lia.
  do 5 (split; [assumption |]).
  exact (proj1 (sigterm_ends_the_daemon (sample_os 0 4242 0 (sigterm_at 2)) "./sampled" 9
                  "/home" 18 2 [] Hf Hs Hc Hq Ha Hk)).
Defined.






(** ** The pace of the loop *)

Lemma snd_bind_ret {A B : Type} (m : M A) (b : B) (p : proc) :
  snd (bind m (fun _ => ret b) p) = snd (m p).
Proof. unfold bind. destruct (m p) as [[a | s | s | ] p']; reflexivity. Qed.









(** ** Observing longer *)




(** ** Error records *)

Lemma no_error_record_emit c q :
  error_record c = false -> no_error_record q -> no_error_record (emit c q).
Proof.
  intros Hc Hq. unfold no_error_record in *. cbn [calls emit].
  rewrite existsb_app, Hq. cbn [existsb]. rewrite Hc. reflexivity.
Qed.

Lemma no_error_record_same q q' :
  calls q' = calls q -> no_error_record q -> no_error_record q'.
Proof. unfold no_error_record. intros ->. auto. Qed.

Lemma existsb_false_filter {A : Type} (f : A -> bool) (l : list A) :
  existsb f l = false -> List.filter f l = [].
Proof.
  induction l as [| a l IH]; [reflexivity |].
  cbn [existsb List.filter]. intros H. apply orb_false_iff in H as [Ha Hl].
  rewrite Ha. apply IH, Hl.
Qed.

Lemma deliver_no_error_record w s : keeps no_error_record (deliver w s).
Proof.
  intros p Hp. unfold deliver.
  destruct (handlers p !! s) as [[] |].
  - cbn [run_handler]. unfold _signal_handler.
    destruct (s =? SIGHUP); [exact (no_error_record_emit (Caught s) p eq_refl Hp) |].
    destruct (s =? SIGTERM); run.
    + apply no_error_record_emit; [reflexivity |].
      apply (no_error_record_same
               (emit Closelog (emit (Syslog LOG_INFO "received SIGTERM - exiting.")
                                 (emit (Caught s) p)))); [reflexivity |].
      do 3 (apply no_error_record_emit; [reflexivity |]). exact Hp.
    + do 2 (apply no_error_record_emit; [reflexivity |]). exact Hp.
  - destruct (sig_dfl_fatal w s); exact Hp.
Qed.

Lemma log_time_no_error_record w fuel : keeps no_error_record (_log_time w fuel).
Proof.
  induction fuel as [| fuel IH]; [intros p Hp; exact Hp |].
  cbn [_log_time].
  apply keeps_bind;
    [intros p Hp; apply no_error_record_emit; [reflexivity | exact Hp] | intros rawtime].
  apply keeps_bind;
    [intros p Hp; apply no_error_record_emit; [reflexivity | exact Hp] | intros _].
  apply keeps_bind; [| intros _; exact IH].
  intros p Hp. unfold sleep.
  apply (keeps_bind no_error_record); [| intros _; apply keeps_ret |].
  - generalize (arrivals w (naps p)). intros sigs.
    induction sigs as [| s sigs IHs]; [apply keeps_ret |].
    cbn [deliver_all]. apply keeps_bind; [apply deliver_no_error_record | intros _; exact IHs].
  - apply (no_error_record_same (emit (Sleep LOG_INTERVAL) p)); [reflexivity |].
    apply no_error_record_emit; [reflexivity | exact Hp].
Qed.

(** X12.  A record at priority [LOG_ERR] is written exactly when the
    process ends with one of the error statuses 3, 4, 5; there is one such
    record at most in a run, neither the handler nor the loop writes one,
    and when there is one it is the last call and carries the error
    description. *)
Theorem error_record_iff_error_status :
  forall (w : os) (argv0 : string) (fuel : nat) (dir : string) (m : Z),
    (existsb error_record (calls (snd (main w argv0 fuel (fresh dir m)))) = true
     <-> exit_status (fst (main w argv0 fuel (fresh dir m))) = Some ERR_FORK
         \/ exit_status (fst (main w argv0 fuel (fresh dir m))) = Some ERR_SETSID
         \/ exit_status (fst (main w argv0 fuel (fresh dir m))) = Some ERR_CHDIR)
    /\ (List.filter error_record (calls (snd (main w argv0 fuel (fresh dir m)))) = []
        \/ exists e,
             List.filter error_record (calls (snd (main w argv0 fuel (fresh dir m))))
             = [Syslog LOG_ERR (format_s ERROR_FORMAT (strerror w e))]
             /\ List.last (calls (snd (main w argv0 fuel (fresh dir m)))) Fork
                = Syslog LOG_ERR (format_s ERROR_FORMAT (strerror w e))).
Proof.
  intros w argv0 fuel dir m.
  destruct (main_viewP w argv0 fuel (fresh dir m)); cbn [fst snd exit_status].
  - split; [split; [intros _; left; reflexivity | reflexivity] |].
    right. exists (fork_errno w). split; reflexivity.
  - split; [split; [intros _; right; left; reflexivity | reflexivity] |].
    right. exists (setsid_errno w). split; reflexivity.
  - split.
    + split; [| intros [K | [K | K]]; discriminate].
      unfold sessioned. destruct (setsid_ret w <? 0); cbn; discriminate.
    + left. unfold sessioned. destruct (setsid_ret w <? 0); reflexivity.
  - split; [split; [intros _; right; right; reflexivity |] |].
    + intros _. unfold detached, sessioned. destruct (setsid_ret w <? 0); reflexivity.
    + right. exists (chdir_errno w).
      unfold detached, sessioned. destruct (setsid_ret w <? 0); split; reflexivity.
  - assert (Hq : no_error_record
                   (snd (bind (_log_time w fuel) (fun _ => ret ERR_WTF)
                           (daemonized w argv0 (fresh dir m))))).
    { rewrite snd_bind_ret. apply log_time_no_error_record.
      unfold no_error_record, daemonized, detached, sessioned.
      destruct (setsid_ret w <? 0); reflexivity. }
    unfold no_error_record in Hq. split.
    + rewrite Hq. split; [discriminate |].
      destruct (loop_then_status w fuel (daemonized w argv0 (fresh dir m))) as [-> | ->];
        intros [K | [K | K]]; discriminate.
    + left. apply existsb_false_filter. exact Hq.
Qed.
